(** * Crop-yield prediction form (Capstone_Project/app.py)

    A shallow embedding of the Streamlit script [app.py].  One execution of
    the script (Streamlit re-executes it from the top on every interaction)
    is a computation in a small state-and-exception monad: the state holds
    the script's module-level names, the elements rendered so far and the
    calls made to the unpickled artifacts.

    The four artifacts are produced outside the repository; they enter the
    development as records of their methods, read from a [Disk].  Python
    floats are IEEE binary64 values (Rocq's primitive [float]); strings are
    byte strings. *)

From Stdlib Require Import ZArith Bool List String Ascii Lia.
From Stdlib Require Import Floats DecimalString.
Import ListNotations.

#[local] Open Scope string_scope.
#[local] Open Scope Z_scope.

(* ------------------------------------------------------------------ *)
(** ** Text helpers *)

(** [needle in haystack] on strings. *)
Fixpoint is_infix (needle haystack : string) : bool :=
  prefix needle haystack
  || match haystack with
     | EmptyString => false
     | String _ rest => is_infix needle rest
     end.

(** Python's [x in xs] for a list of strings. *)
Definition str_in (x : string) (xs : list string) : bool :=
  existsb (String.eqb x) xs.

Definition is_upper (c : ascii) : bool :=
  let n := Z.of_nat (nat_of_ascii c) in (65 <=? n) && (n <=? 90).

Definition is_lower (c : ascii) : bool :=
  let n := Z.of_nat (nat_of_ascii c) in (97 <=? n) && (n <=? 122).

Definition to_upper (c : ascii) : ascii :=
  if is_lower c then ascii_of_nat (nat_of_ascii c - 32) else c.

Definition to_lower (c : ascii) : ascii :=
  if is_upper c then ascii_of_nat (nat_of_ascii c + 32) else c.

(** [str.title()] on ASCII strings: the first cased character after an
    uncased one is put in upper case, every other cased character in lower
    case.  Only the ASCII letters are cased here; a byte outside ASCII is
    copied and counts as uncased, which is not what Python does with
    accented letters, so statements that name a title-cased string are made
    for ASCII strings ([is_ascii]). *)
Fixpoint title_from (previous_is_cased : bool) (s : string) : string :=
  match s with
  | EmptyString => EmptyString
  | String c rest =>
      if is_lower c then
        String (if previous_is_cased then c else to_upper c) (title_from true rest)
      else if is_upper c then
        String (if previous_is_cased then to_lower c else c) (title_from true rest)
      else String c (title_from false rest)
  end.

Definition title (s : string) : string := title_from false s.

(* ------------------------------------------------------------------ *)
(** ** Formatting of floats: [format(x, ".2f")], [format(x, ",.0f")], [repr(x)] *)

Definition digit (d : Z) : ascii := ascii_of_nat (48 + Z.to_nat d).

(** Decimal digits of a non-negative integer, without leading zeros. *)
Definition dec (n : Z) : string := NilZero.string_of_uint (N.to_uint (Z.to_N n)).

(** The last [k] decimal digits of [n], zero padded. *)
Fixpoint low_digits (k : nat) (n : Z) : string :=
  match k with
  | O => ""
  | S k' => low_digits k' (n / 10) ++ String (digit (n mod 10)) ""
  end.

(** [num / den] rounded to the nearest integer, ties to even
    ([0 <= num], [0 < den]). *)
Definition round_half_even (num den : Z) : Z :=
  let q := num / den in
  match (2 * (num mod den)) ?= den with
  | Lt => q
  | Gt => q + 1
  | Eq => if Z.even q then q else q + 1
  end.

(** [m * 2^e * 10^k] rounded to an integer, ties to even; negative
    exponents go to the denominator. *)
Definition scaled (k : Z) (m : positive) (e : Z) : Z :=
  round_half_even (Z.pos m * 2 ^ Z.max e 0 * 10 ^ Z.max k 0)
                  (2 ^ Z.max (- e) 0 * 10 ^ Z.max (- k) 0).

(** The [,] option: groups of three digits from the right. *)
Fixpoint group3 (rev_digits : list ascii) (acc : list ascii) : list ascii :=
  match rev_digits with
  | a :: b :: c :: ((_ :: _) as more) => group3 more ("," :: c :: b :: a :: acc)%char
  | _ => rev_append rev_digits acc
  end.

Definition thousands (s : string) : string :=
  string_of_list_ascii (group3 (rev (list_ascii_of_string s)) []).

(** [n / 10^prec] printed with [prec] digits after the point. *)
Definition fixed_point (comma : bool) (prec : nat) (n : Z) : string :=
  let whole := dec (n / 10 ^ Z.of_nat prec) in
  (if comma then thousands whole else whole)
  ++ match prec with
     | O => ""
     | _ => "." ++ low_digits prec n
     end.

Definition sign_text (negative : bool) : string := if negative then "-" else "".

(** [format(x, ".<prec>f")], and with [comma] [format(x, ",.<prec>f")]. *)
Definition format_f (comma : bool) (prec : nat) (x : float) : string :=
  match Prim2SF x with
  | S754_nan => "nan"
  | S754_infinity s => sign_text s ++ "inf"
  | S754_zero s => sign_text s ++ fixed_point comma prec 0
  | S754_finite s m e =>
      sign_text s ++ fixed_point comma prec (scaled (Z.of_nat prec) m e)
  end.

(** [num * 10^k] compared with [c * 2^e], the powers cleared of negative
    exponents first. *)
Definition compare_scaled (num k c e : Z) : comparison :=
  (num * 10 ^ Z.max k 0 * 2 ^ Z.max (- e) 0)
  ?= (c * 2 ^ Z.max e 0 * 10 ^ Z.max (- k) 0).

(** The position of the decimal point: the least [d] with [m * 2^e < 10^d],
    searched upwards from an estimate that lies below it. *)
Fixpoint point_from (fuel : nat) (d : Z) (m : positive) (e : Z) : Z :=
  match fuel with
  | O => d
  | S fuel' =>
      match compare_scaled 1 d (Z.pos m) e with
      | Gt => d
      | _ => point_from fuel' (d + 1) m e
      end
  end.

Definition decimal_point (m : positive) (e : Z) : Z :=
  point_from 6 ((Z.log2 (Z.pos m) + e) * 30103 / 100000 - 2) m e.

(** Does the decimal [d * 10^k] read back as the binary64 value [m * 2^e]?
    It does when it lies within half a gap of it, the ends counting when the
    mantissa is even. *)
Definition reads_back (d k : Z) (m : positive) (e : Z) : bool :=
  let below := if (Z.pos m =? 2 ^ 52) && (-1074 <? e) then 1 else 2 in
  let closed := Z.even (Z.pos m) in
  match compare_scaled d k (4 * Z.pos m - below) (e - 2),
        compare_scaled d k (4 * Z.pos m + 2) (e - 2) with
  | Gt, Lt => true
  | Eq, Lt | Gt, Eq => closed
  | _, _ => false
  end.

(** The neighbour of [m * 2^e * 10^k] on the other side from its rounding
    [scaled k m e]. *)
Definition other_side (k : Z) (m : positive) (e : Z) : Z :=
  let q := (Z.pos m * 2 ^ Z.max e 0 * 10 ^ Z.max k 0)
           / (2 ^ Z.max (- e) 0 * 10 ^ Z.max (- k) 0) in
  if scaled k m e =? q then q + 1 else q.

(** The shortest decimal [d * 10^k] that reads back as [m * 2^e]: with [n],
    [n+1], ... significant digits in turn, the nearest decimal is tried and
    then its neighbour on the other side (below a power of two the gap is
    half as wide, so only the farther one may read back); seventeen digits
    always do. *)
Fixpoint shortest_from (fuel : nat) (n : Z) (point : Z) (m : positive) (e : Z)
  : Z * Z :=
  let k := point - n in
  let d := scaled (- k) m e in
  let d' := other_side (- k) m e in
  match fuel with
  | O => (d, k)
  | S fuel' =>
      if reads_back d k m e then (d, k)
      else if reads_back d' k m e then (d', k)
      else shortest_from fuel' (n + 1) point m e
  end.

Fixpoint strip_zeros (rev_digits : list ascii) : list ascii :=
  match rev_digits with
  | "0"%char :: ((_ :: _) as more) => strip_zeros more
  | _ => rev_digits
  end.

Fixpoint zeros (n : nat) : string :=
  match n with O => "" | S n' => String "0" (zeros n') end.

(** [repr] of a positive finite float from its digits and decimal point:
    fixed notation when [-4 < point <= 16], exponent notation otherwise. *)
Definition repr_layout (digits : string) (point : Z) : string :=
  let n := Z.of_nat (String.length digits) in
  if (point <=? -4) || (16 <? point) then
    let x := point - 1 in
    substring 0 1 digits
    ++ (if 1 <? n then "." ++ substring 1 (String.length digits - 1) digits else "")
    ++ "e" ++ (if x <? 0 then "-" else "+")
    ++ (if Z.abs x <? 10 then "0" else "") ++ dec (Z.abs x)
  else if point <=? 0 then "0." ++ zeros (Z.to_nat (- point)) ++ digits
  else if n <=? point then digits ++ zeros (Z.to_nat (point - n)) ++ ".0"
  else substring 0 (Z.to_nat point) digits
       ++ "." ++ substring (Z.to_nat point) (String.length digits - Z.to_nat point) digits.

(** [repr(x)], which is also [str(x)] and what an f-string field without a
    format specification shows. *)
Definition float_repr (x : float) : string :=
  match Prim2SF x with
  | S754_nan => "nan"
  | S754_infinity s => sign_text s ++ "inf"
  | S754_zero s => sign_text s ++ "0.0"
  | S754_finite s m e =>
      let '(d, k) := shortest_from 16 1 (decimal_point m e) m e in
      let all := dec d in
      let digits := string_of_list_ascii
                      (rev (strip_zeros (rev (list_ascii_of_string all)))) in
      sign_text s ++ repr_layout digits (k + Z.of_nat (String.length all))
  end.

(* ------------------------------------------------------------------ *)
(** ** Exceptions and the unpickled artifacts *)

(** The classes of [Exception] the script tells apart or can raise itself;
    everything modelled here derives from [Exception], which is what
    [except Exception] catches. *)
Inductive exn_class :=
| FileNotFoundError
| UnpicklingError
| NameError
| AttributeError
| IndexError
| ValueError
| RuntimeError.

(** An exception instance: its class and [str(e)]. *)
Record exn := Exn { exn_class_of : exn_class; exn_text : string }.

(** What a method of an artifact does: return or raise. *)
Inductive result (A : Type) :=
| Ok (a : A)
| Err (e : exn).
Arguments Ok {A} a.
Arguments Err {A} e.

(** A cell of the one-row frame: [year] and the two codes are integers, the
    three slider values are floats. *)
Inductive scalar :=
| Int (z : Z)
| Float (x : float).

Record DataFrame := { data : list (list scalar); columns : list string }.

(** A fitted label encoder as the script uses it: the attribute [classes_]
    (reading it can raise) and the method [transform] on a list of labels;
    a label is a string or [None]. *)
Module Encoder.
Record t := {
  classes_ : result (list string);
  transform : list (option string) -> result (list Z)
}.
End Encoder.

(** A fitted scaler: [transform] on a frame gives a two-dimensional array. *)
Module Scaler.
Record t := { transform : DataFrame -> result (list (list float)) }.
End Scaler.

(** A fitted regression model: [predict] gives one value per row. *)
Module Model.
Record t := { predict : list (list float) -> result (list float) }.
End Model.

(** A pickle file in the working directory. *)
Inductive file (A : Type) :=
| Missing
| Unreadable (e : exn)
| Pickled (a : A).
Arguments Missing {A}.
Arguments Unreadable {A} e.
Arguments Pickled {A} a.

Record Disk := {
  crop_yield_model_pkl : file Model.t;
  scaler_pkl : file Scaler.t;
  le_area_pkl : file Encoder.t;
  le_item_pkl : file Encoder.t
}.

(* ------------------------------------------------------------------ *)
(** ** The state of one execution of the script *)

(** The module-level names the script assigns; [None] is an unbound name. *)
Record Globals := {
  model : option Model.t;
  scaler : option Scaler.t;
  le_area : option Encoder.t;
  le_item : option Encoder.t;
  area_options : option (list string);
  item_options : option (list string)
}.

Inductive panel := Main | Sidebar.

(** What Streamlit has been asked to render. *)
Inductive element :=
| Title (body : string)
| Header (place : panel) (body : string)
| Subheader (body : string)
| Markdown (body : string)
| Success (body : string)
| Error (place : panel) (body : string)
| NumberInput (label : string) (min_value max_value value : Z)
| Slider (label : string) (min_value max_value value step : float)
| Selectbox (label : string) (options : list string)
| Button (label : string).

(** Method calls on the artifacts. *)
Inductive call :=
| le_item_transform (y : list (option string))
| le_area_transform (y : list (option string))
| scaler_transform (X : DataFrame)
| model_predict (X : list (list float)).

Record World := {
  globals : Globals;
  screen : list element;
  calls : list call
}.

(** How a piece of the script ends: normally, with an exception in flight,
    or stopped by [st.stop()] (a control-flow signal that [except Exception]
    does not catch). *)
Inductive outcome (A : Type) :=
| Ret (a : A)
| Raise (e : exn)
| Stop.
Arguments Ret {A} a.
Arguments Raise {A} e.
Arguments Stop {A}.

Definition M (A : Type) : Type := World -> outcome A * World.

Definition ret {A} (a : A) : M A := fun w => (Ret a, w).

Definition bind {A B} (c : M A) (k : A -> M B) : M B :=
  fun w =>
    match c w with
    | (Ret a, w') => k a w'
    | (Raise e, w') => (Raise e, w')
    | (Stop, w') => (Stop, w')
    end.

Notation "x <- c ;; k" := (bind c (fun x => k))
  (at level 61, c at next level, right associativity).
Notation "c ;; k" := (bind c (fun _ => k))
  (at level 61, right associativity).

Definition raise {A} (e : exn) : M A := fun w => (Raise e, w).

(** [try: body  except Exception as e: handler e]. *)
Definition try_except {A} (body : M A) (handler : exn -> M A) : M A :=
  fun w =>
    match body w with
    | (Raise e, w') => handler e w'
    | other => other
    end.

(** The world with one more element on the screen. *)
Definition show (el : element) (w : World) : World :=
  {| globals := globals w; screen := screen w ++ [el]; calls := calls w |}.

(** The world with one more call recorded. *)
Definition record (c : call) (w : World) : World :=
  {| globals := globals w; screen := screen w; calls := calls w ++ [c] |}.

Definition render (el : element) : M unit := fun w => (Ret tt, show el w).

Definition assign (update : Globals -> Globals) : M unit :=
  fun w => (Ret tt, {| globals := update (globals w);
                       screen := screen w;
                       calls := calls w |}).

(** Reading a module-level name. *)
Definition name {A} (id : string) (field : Globals -> option A) : M A :=
  fun w =>
    match field (globals w) with
    | Some a => (Ret a, w)
    | None => (Raise (Exn NameError ("name '" ++ id ++ "' is not defined")), w)
    end.

(** A method call on an artifact: recorded, then its result. *)
Definition invoke {A} (c : call) (r : result A) : M A :=
  fun w =>
    match r with
    | Ok a => (Ret a, record c w)
    | Err e => (Raise e, record c w)
    end.

(** [xs[0]]. *)
Definition getitem0 {A} (xs : list A) : M A :=
  match xs with
  | x :: _ => ret x
  | [] => raise (Exn IndexError "index 0 is out of bounds for axis 0 with size 0")
  end.

(** [choice.title()], where [choice] may be [None]. *)
Definition str_title (choice : option string) : M string :=
  match choice with
  | Some s => ret (title s)
  | None => raise (Exn AttributeError "'NoneType' object has no attribute 'title'")
  end.

(** [pickle.load(open(path, 'rb'))]. *)
Definition pickle_load {A} (path : string) (f : file A) : M A :=
  match f with
  | Missing =>
      raise (Exn FileNotFoundError
               ("[Errno 2] No such file or directory: '" ++ path ++ "'"))
  | Unreadable e => raise e
  | Pickled a => ret a
  end.

(** *** Streamlit calls *)

Definition st_title (body : string) : M unit := render (Title body).
Definition st_header (body : string) : M unit := render (Header Main body).
Definition st_subheader (body : string) : M unit := render (Subheader body).
Definition st_markdown (body : string) : M unit := render (Markdown body).
Definition st_success (body : string) : M unit := render (Success body).
Definition st_error (body : string) : M unit := render (Error Main body).
Definition st_sidebar_header (body : string) : M unit := render (Header Sidebar body).
Definition st_sidebar_error (body : string) : M unit := render (Error Sidebar body).
Definition st_stop {A} : M A := fun w => (Stop, w).

(** The widgets render themselves and return the value the user has set;
    the last argument is that value. *)
Definition st_sidebar_number_input (label : string) (min_value max_value value : Z)
  (current : Z) : M Z :=
  render (NumberInput label min_value max_value value) ;; ret current.

Definition st_sidebar_slider (label : string) (min_value max_value value step : float)
  (current : float) : M float :=
  render (Slider label min_value max_value value step) ;; ret current.

Definition st_sidebar_selectbox (label : string) (options : list string)
  (current : option string) : M (option string) :=
  render (Selectbox label options) ;; ret current.

Definition st_sidebar_button (label : string) (clicked : bool) : M bool :=
  render (Button label) ;; ret clicked.

(** What the user has set on the six controls and whether this execution
    was triggered by the button. *)
Record Inputs := {
  year_value : Z;
  avg_temp_value : float;
  rainfall_value : float;
  pesticide_value : float;
  item_selected : option string;
  area_selected : option string;
  predict_clicked : bool
}.

(* ------------------------------------------------------------------ *)
(** ** The script *)

Definition nl : string := String (ascii_of_nat 10) "".

(** Lines 8-11: the four artifacts are unpickled and bound in turn. *)
Definition load_body (d : Disk) : M unit :=
  m <- pickle_load "crop_yield_model.pkl" (crop_yield_model_pkl d) ;;
  assign (fun g => {| model := Some m; scaler := scaler g;
                      le_area := le_area g; le_item := le_item g;
                      area_options := area_options g;
                      item_options := item_options g |}) ;;
  s <- pickle_load "scaler.pkl" (scaler_pkl d) ;;
  assign (fun g => {| model := model g; scaler := Some s;
                      le_area := le_area g; le_item := le_item g;
                      area_options := area_options g;
                      item_options := item_options g |}) ;;
  a <- pickle_load "le_area.pkl" (le_area_pkl d) ;;
  assign (fun g => {| model := model g; scaler := scaler g;
                      le_area := Some a; le_item := le_item g;
                      area_options := area_options g;
                      item_options := item_options g |}) ;;
  i <- pickle_load "le_item.pkl" (le_item_pkl d) ;;
  assign (fun g => {| model := model g; scaler := scaler g;
                      le_area := le_area g; le_item := Some i;
                      area_options := area_options g;
                      item_options := item_options g |}).

Definition files_not_found_message : string :=
  "Model files not found! Please run the training script first.".

(** Lines 12-17: the two handlers of the load; both end in [st.stop()]. *)
Definition load_failed (e : exn) : M unit :=
  match exn_class_of e with
  | FileNotFoundError => st_error files_not_found_message ;; st_stop
  | _ => st_error ("An error occurred loading files: " ++ exn_text e) ;; st_stop
  end.

(** Lines 7-17. *)
Definition load_artifacts (d : Disk) : M unit :=
  try_except (load_body d) load_failed.

(** Line 21. *)
Definition feature_names : list string :=
  ["year"; "average_rain_fall_mm_per_year"; "avg_temp"; "pesticide_tonnes";
   "area_encoded"; "item_encoded"].

Definition set_area_options (xs : list string) (g : Globals) : Globals :=
  {| model := model g; scaler := scaler g;
     le_area := le_area g; le_item := le_item g;
     area_options := Some xs; item_options := item_options g |}.

Definition set_item_options (xs : list string) (g : Globals) : Globals :=
  {| model := model g; scaler := scaler g;
     le_area := le_area g; le_item := le_item g;
     area_options := area_options g; item_options := Some xs |}.

(** [list(le.classes_)]. *)
Definition classes_of (e : Encoder.t) : M (list string) :=
  match Encoder.classes_ e with
  | Ok cs => ret cs
  | Err x => raise x
  end.

(** Lines 36-37. *)
Definition options_body : M unit :=
  a <- name "le_area" le_area ;;
  cs <- classes_of a ;;
  assign (set_area_options cs) ;;
  i <- name "le_item" le_item ;;
  cs' <- classes_of i ;;
  assign (set_item_options cs').

(** Lines 38-41. *)
Definition options_failed (_ : exn) : M unit :=
  st_sidebar_error "Error reading encoder classes." ;;
  assign (set_area_options ["Error"]) ;;
  assign (set_item_options ["Error"]).

(** Lines 35-41. *)
Definition get_options : M unit := try_except options_body options_failed.

(** Line 58: [le_item.transform([item_choice])[0]]. *)
Definition encode_item (item_choice : option string) : M Z :=
  i <- name "le_item" le_item ;;
  codes <- invoke (le_item_transform [item_choice])
                  (Encoder.transform i [item_choice]) ;;
  getitem0 codes.

(** Line 59: [le_area.transform([area_choice])[0]]. *)
Definition encode_area (area_choice : option string) : M Z :=
  a <- name "le_area" le_area ;;
  codes <- invoke (le_area_transform [area_choice])
                  (Encoder.transform a [area_choice]) ;;
  getitem0 codes.

(** Lines 62-65: the one-row frame handed to the scaler. *)
Definition input_data (year : Z) (rainfall avg_temp pesticide_tonnes : float)
  (area_encoded item_encoded : Z) : DataFrame :=
  {| data := [[Int year; Float rainfall; Float avg_temp; Float pesticide_tonnes;
               Int area_encoded; Int item_encoded]];
     columns := feature_names |}.

(** Line 73. *)
Definition headline (item area : string) : string :=
  "Predicted Crop Yield for " ++ item ++ " in " ++ area ++ ":".

(** Line 74. *)
Definition yield_text (p : float) : string :=
  "**" ++ format_f false 2 p ++ " hg/ha**".

(** Lines 79-83. *)
Definition advice (p pesticide_tonnes rainfall avg_temp : float) : string :=
  nl
  ++ "            * **Input Allocation:** A predicted yield of **"
  ++ format_f false 2 p
  ++ " hg/ha** is a good indicator. You can use this to decide if applying more fertilizer or pesticides (like the "
  ++ format_f true 0 pesticide_tonnes
  ++ " tonnes used in this estimate) is cost-effective." ++ nl
  ++ "            * **Risk Assessment:** If the predicted yield is very low, it signals high risk. This could be due to factors like low rainfall ("
  ++ format_f true 0 rainfall
  ++ " mm) or high temperatures ("
  ++ float_repr avg_temp
  ++ "°C). This information can help in planning for potential losses or securing insurance." ++ nl
  ++ "            * **Market Planning:** Knowing your expected output helps you negotiate better prices and plan your market logistics in advance." ++ nl
  ++ "            ".

(** Lines 57-83: the body of the [try]. *)
Definition predict_body (year : Z) (rainfall avg_temp pesticide_tonnes : float)
  (item_choice area_choice : option string) : M unit :=
  item_encoded <- encode_item item_choice ;;
  area_encoded <- encode_area area_choice ;;
  let X := input_data year rainfall avg_temp pesticide_tonnes
                      area_encoded item_encoded in
  s <- name "scaler" scaler ;;
  input_data_scaled <- invoke (scaler_transform X) (Scaler.transform s X) ;;
  m <- name "model" model ;;
  prediction <- invoke (model_predict input_data_scaled)
                       (Model.predict m input_data_scaled) ;;
  item_title <- str_title item_choice ;;
  area_title <- str_title area_choice ;;
  st_subheader (headline item_title area_title) ;;
  p <- getitem0 prediction ;;
  st_success (yield_text p) ;;
  st_markdown "---" ;;
  st_header "How this prediction can help:" ;;
  p' <- getitem0 prediction ;;
  st_markdown (advice p' pesticide_tonnes rainfall avg_temp).

Definition encoders_not_loaded_message : string :=
  "Cannot make prediction. Encoders were not loaded correctly.".

(** Lines 85-86. *)
Definition predict_failed (e : exn) : M unit :=
  st_error ("An error occurred during prediction: " ++ exn_text e).

(** Lines 53-86: what a press of the button runs. *)
Definition on_predict (year : Z) (rainfall avg_temp pesticide_tonnes : float)
  (item_choice area_choice : option string) : M unit :=
  options <- name "area_options" area_options ;;
  if str_in "Error" options then st_error encoders_not_loaded_message
  else
    try_except
      (predict_body year rainfall avg_temp pesticide_tonnes item_choice area_choice)
      predict_failed.

(** The whole script, for the widget values [u]. *)
Definition app (d : Disk) (u : Inputs) : M unit :=
  load_artifacts d ;;
  st_title "🌱 Crop Yield Prediction for Smallholder Farmers" ;;
  st_markdown
    (nl ++ "This app predicts crop yield (in **hg/ha**"
     ++ ") based on environmental and agricultural factors." ++ nl
     ++ "Use the sidebar to input data and click 'Predict' to see the results."
     ++ nl) ;;
  st_sidebar_header "Input Features" ;;
  get_options ;;
  year <- st_sidebar_number_input "Year" 2010 2030 2024 (year_value u) ;;
  avg_temp <- st_sidebar_slider "Average Temperature (°C)"
                (-10.0) 45.0 20.0 0.5 (avg_temp_value u) ;;
  rainfall <- st_sidebar_slider "Average Rainfall (mm/year)"
                0.0 8000.0 1200.0 50.0 (rainfall_value u) ;;
  pesticide_tonnes <- st_sidebar_slider "Pesticide Use (tonnes)"
                        0.0 400000.0 50000.0 1000.0 (pesticide_value u) ;;
  crops <- name "item_options" item_options ;;
  item_choice <- st_sidebar_selectbox "Crop Type" crops (item_selected u) ;;
  areas <- name "area_options" area_options ;;
  area_choice <- st_sidebar_selectbox "Area/Country" areas (area_selected u) ;;
  pressed <- st_sidebar_button "Predict Crop Yield" (predict_clicked u) ;;
  if pressed then
    on_predict year rainfall avg_temp pesticide_tonnes item_choice area_choice
  else ret tt.

(** A fresh execution: nothing bound, nothing rendered, nothing called. *)
Definition fresh : World :=
  {| globals := {| model := None; scaler := None; le_area := None; le_item := None;
                   area_options := None; item_options := None |};
     screen := [];
     calls := [] |}.

Definition run (d : Disk) (u : Inputs) : outcome unit * World := app d u fresh.


(** The two option lists lines 35-41 leave behind, read off the encoders. *)
Definition options_after (a i : Encoder.t) : list string * list string :=
  match Encoder.classes_ a, Encoder.classes_ i with
  | Ok area_classes, Ok item_classes => (area_classes, item_classes)
  | _, _ => (["Error"], ["Error"])
  end.

(** The world in which the button is evaluated when the four artifacts
    [m], [s], [a], [i] have loaded: all six names bound, the page and the
    form [page] on the screen, no call made yet. *)
Definition ready (m : Model.t) (s : Scaler.t) (a i : Encoder.t)
  (page : list element) : World :=
  {| globals := {| model := Some m; scaler := Some s;
                   le_area := Some a; le_item := Some i;
                   area_options := Some (fst (options_after a i));
                   item_options := Some (snd (options_after a i)) |};
     screen := page;
     calls := [] |}.

(** A disk on which all four files unpickle. *)
Definition disk_of (m : Model.t) (s : Scaler.t) (a i : Encoder.t) : Disk :=
  {| crop_yield_model_pkl := Pickled m; scaler_pkl := Pickled s;
     le_area_pkl := Pickled a; le_item_pkl := Pickled i |}.

(* ------------------------------------------------------------------ *)
(** ** Sample artifacts

    The pickle files are not part of the repository.  The artifacts below
    follow the spec's glossary and serve as concrete inputs. *)

Fixpoint index_of (x : string) (xs : list string) : option Z :=
  match xs with
  | [] => None
  | y :: ys => if String.eqb x y then Some 0
               else option_map Z.succ (index_of x ys)
  end.

Fixpoint codes_of (classes : list string) (y : list (option string))
  : result (list Z) :=
  match y with
  | [] => Ok []
  | None :: _ => Err (Exn ValueError "y contains previously unseen labels: None")
  | Some label :: rest =>
      match index_of label classes with
      | None => Err (Exn ValueError
                       ("y contains previously unseen labels: '" ++ label ++ "'"))
      | Some c =>
          match codes_of classes rest with
          | Ok cs => Ok (c :: cs)
          | Err e => Err e
          end
      end
  end.

(** Modelled from the spec: a fitted mapping from a finite set of category
    strings to integer codes (the pickled encoders are missing); the code of
    a class is its position among the learned classes, and a label outside
    them raises. *)
Definition label_encoder (classes : list string) : Encoder.t :=
  {| Encoder.classes_ := Ok classes;
     Encoder.transform := codes_of classes |}.

Definition float_of_Z (z : Z) : float :=
  if z <? 0 then (- of_uint63 (Uint63.of_Z (- z)))%float
  else of_uint63 (Uint63.of_Z z).

Definition to_float (v : scalar) : float :=
  match v with
  | Int z => float_of_Z z
  | Float x => x
  end.

Fixpoint standardize (mean scale : list float) (row : list scalar)
  : option (list float) :=
  match mean, scale, row with
  | [], [], [] => Some []
  | mu :: mean', sigma :: scale', v :: row' =>
      option_map (cons ((to_float v - mu) / sigma)%float)
                 (standardize mean' scale' row')
  | _, _, _ => None
  end.

Fixpoint all_rows {A B} (f : A -> option B) (rows : list A) : option (list B) :=
  match rows with
  | [] => Some []
  | r :: rest =>
      match f r, all_rows f rest with
      | Some b, Some bs => Some (b :: bs)
      | _, _ => None
      end
  end.

(** Modelled from the spec: a fitted numeric normalization transform
    (standardization) of the feature columns (the pickled scaler is
    missing); a row of another width raises. *)
Definition standard_scaler (mean scale : list float) : Scaler.t :=
  {| Scaler.transform := fun X =>
       match all_rows (standardize mean scale) (data X) with
       | Some rows => Ok rows
       | None => Err (Exn ValueError "X has a different number of features than StandardScaler is expecting")
       end |}.

Fixpoint dot (coef row : list float) (acc : float) : option float :=
  match coef, row with
  | [], [] => Some acc
  | c :: coef', x :: row' => dot coef' row' (acc + c * x)%float
  | _, _ => None
  end.

(** Modelled from the spec: a fitted regression model (the pickled model is
    missing), here a linear one: one float per row. *)
Definition linear_model (coef : list float) (intercept : float) : Model.t :=
  {| Model.predict := fun X =>
       match all_rows (fun row => dot coef row intercept) X with
       | Some ys => Ok ys
       | None => Err (Exn ValueError "X has a different number of features than LinearRegression is expecting")
       end |}.

Definition sample_areas : list string :=
  ["Algeria"; "Brazil"; "Egypt"; "Ghana"; "India"; "Kenya"; "Mali"; "Nigeria"; "Uganda"].

Definition sample_items : list string :=
  ["Cassava"; "Cotton"; "Lentils"; "Maize"; "Potatoes"; "Sorghum"; "Wheat"].

Definition sample_scaler : Scaler.t :=
  standard_scaler [2001.5; 1149.0; 20.5; 37000.0; 4.0; 3.0]%float
                  [7.0; 709.0; 6.25; 59000.0; 2.5; 2.0]%float.

Definition sample_model : Model.t :=
  linear_model [1500.0; 9000.0; -4000.0; 2500.0; 300.0; -12000.0]%float 77000.0%float.



Definition sample_disk : Disk :=
  disk_of sample_model sample_scaler
          (label_encoder sample_areas) (label_encoder sample_items).


(** The widgets' default values, with "Maize" in "Nigeria" chosen and the
    button pressed. *)
Definition sample_inputs : Inputs :=
  {| year_value := 2024; avg_temp_value := 20.0; rainfall_value := 1200.0;
     pesticide_value := 50000.0;
     item_selected := Some "Maize"; area_selected := Some "Nigeria";
     predict_clicked := true |}.


(** What [sample_scaler] makes of the row of [sample_inputs], and what
    [sample_model] predicts for it (about 83699.667). *)
Definition sample_scaled : list (list float) :=
  [[0x1.9b6db6db6db6ep+1; 0x1.26a27b7c91df8p-4; -0x1.47ae147ae147bp-4;
    0x1.c34115b1e5f75p-3; 0x1.3333333333333p+0; 0]]%float.


(** [le_item.pkl] has not been written yet. *)
Definition missing_disk : Disk :=
  {| crop_yield_model_pkl := Pickled sample_model;
     scaler_pkl := Pickled sample_scaler;
     le_area_pkl := Pickled (label_encoder sample_areas);
     le_item_pkl := Missing |}.

(** [scaler.pkl] is not a pickle. *)
Definition corrupt_disk : Disk :=
  {| crop_yield_model_pkl := Pickled sample_model;
     scaler_pkl := Unreadable (Exn UnpicklingError "invalid load key, 'x'.");
     le_area_pkl := Pickled (label_encoder sample_areas);
     le_item_pkl := Pickled (label_encoder sample_items) |}.

(** A pickled dictionary where an encoder is expected: it has neither
    [classes_] nor [transform]. *)
Definition not_an_encoder : Encoder.t :=
  {| Encoder.classes_ :=
       Err (Exn AttributeError "'dict' object has no attribute 'classes_'");
     Encoder.transform := fun _ =>
       Err (Exn AttributeError "'dict' object has no attribute 'transform'") |}.

Definition dict_disk : Disk :=
  disk_of sample_model sample_scaler (label_encoder sample_areas) not_an_encoder.

(** Encoders fitted on data in which "Error" is a category. *)
Definition error_crop_disk : Disk :=
  disk_of sample_model sample_scaler
          (label_encoder sample_areas) (label_encoder ["Error"]).

Definition error_area_disk : Disk :=
  disk_of sample_model sample_scaler
          (label_encoder ("Error" :: sample_areas)) (label_encoder sample_items).

Definition error_crop_inputs : Inputs :=
  {| year_value := 2024; avg_temp_value := 20.0; rainfall_value := 1200.0;
     pesticide_value := 50000.0;
     item_selected := Some "Error"; area_selected := Some "Nigeria";
     predict_clicked := true |}.

(** A choice the area encoder has not learned. *)
Definition unseen_inputs : Inputs :=
  {| year_value := 2024; avg_temp_value := 20.0; rainfall_value := 1200.0;
     pesticide_value := 50000.0;
     item_selected := Some "Maize"; area_selected := Some "Atlantis";
     predict_clicked := true |}.

(* ------------------------------------------------------------------ *)
(** ** Properties of pieces of the script *)

(** The piece leaves the module-level names as they were. *)
Definition keeps_globals {A} (c : M A) : Prop :=
  forall w, globals (snd (c w)) = globals w.

(** The piece does not end in [st.stop()]. *)
Definition never_stops {A} (c : M A) : Prop :=
  forall w, fst (c w) <> Stop.

(** The texts of the error boxes on a screen, main panel and sidebar. *)
Fixpoint error_texts (els : list element) : list string :=
  match els with
  | [] => []
  | Error _ body :: rest => body :: error_texts rest
  | _ :: rest => error_texts rest
  end.

(** The values the script passes to the handler of the button. *)
Definition pressed (u : Inputs) : M unit :=
  on_predict (year_value u) (rainfall_value u) (avg_temp_value u)
             (pesticide_value u) (item_selected u) (area_selected u).

(* ------------------------------------------------------------------ *)
(** ** Descriptions of whole executions *)

(** What opening and unpickling one file raises, if anything. *)
Definition file_failure {A} (path : string) (f : file A) : option exn :=
  match f with
  | Missing =>
      Some (Exn FileNotFoundError
              ("[Errno 2] No such file or directory: '" ++ path ++ "'"))
  | Unreadable e => Some e
  | Pickled _ => None
  end.

(** The exception of the first file that does not unpickle, in the order of
    lines 8-11: model, scaler, area encoder, item encoder. *)
Definition first_failure (d : Disk) : option exn :=
  match file_failure "crop_yield_model.pkl" (crop_yield_model_pkl d) with
  | Some e => Some e
  | None =>
      match file_failure "scaler.pkl" (scaler_pkl d) with
      | Some e => Some e
      | None =>
          match file_failure "le_area.pkl" (le_area_pkl d) with
          | Some e => Some e
          | None => file_failure "le_item.pkl" (le_item_pkl d)
          end
      end
  end.

(** The text lines 12-17 show for the exception [e]. *)
Definition load_message (e : exn) : string :=
  match exn_class_of e with
  | FileNotFoundError => files_not_found_message
  | _ => "An error occurred loading files: " ++ exn_text e
  end.

(** Lines 24-52: what is on the screen when the button is evaluated, the
    encoders [a] and [i] being loaded: title, introduction, sidebar header,
    the sidebar error if the classes could not be read, the six controls
    and the button. *)
Definition form_page (a i : Encoder.t) : list element :=
  ([Title "🌱 Crop Yield Prediction for Smallholder Farmers";
    Markdown (nl ++ "This app predicts crop yield (in **hg/ha**"
              ++ ") based on environmental and agricultural factors." ++ nl
              ++ "Use the sidebar to input data and click 'Predict' to see the results."
              ++ nl)%string;
    Header Sidebar "Input Features"]
   ++ match Encoder.classes_ a, Encoder.classes_ i with
      | Ok _, Ok _ => []
      | _, _ => [Error Sidebar "Error reading encoder classes."]
      end
   ++ [NumberInput "Year" 2010 2030 2024;
       Slider "Average Temperature (°C)" (-10.0) 45.0 20.0 0.5;
       Slider "Average Rainfall (mm/year)" 0.0 8000.0 1200.0 50.0;
       Slider "Pesticide Use (tonnes)" 0.0 400000.0 50000.0 1000.0;
       Selectbox "Crop Type" (snd (options_after a i));
       Selectbox "Area/Country" (fst (options_after a i));
       Button "Predict Crop Yield"])%list.

(** The texts of the error boxes of the main panel. *)
Fixpoint main_errors (els : list element) : list string :=
  match els with
  | [] => []
  | Error Main body :: rest => body :: main_errors rest
  | _ :: rest => main_errors rest
  end.

(** The texts of the success boxes. *)
Fixpoint results (els : list element) : list string :=
  match els with
  | [] => []
  | Success body :: rest => body :: results rest
  | _ :: rest => results rest
  end.

(** The four shapes of what a press of the button adds to the screen: the
    configuration error; a prediction error; the headline followed by a
    prediction error; the result block. *)
Inductive press_added : list element -> Prop :=
| added_blocked :
    press_added [Error Main encoders_not_loaded_message]
| added_failed (e : exn) :
    press_added [Error Main ("An error occurred during prediction: " ++ exn_text e)]
| added_failed_late (item area : string) (e : exn) :
    press_added [Subheader (headline item area);
                 Error Main ("An error occurred during prediction: " ++ exn_text e)]
| added_result (item area : string) (p pesticide_tonnes rainfall avg_temp : float) :
    press_added [Subheader (headline item area);
                 Success (yield_text p);
                 Markdown "---";
                 Header Main "How this prediction can help:";
                 Markdown (advice p pesticide_tonnes rainfall avg_temp)].

(** [scaler.pkl] is not a pickle and the two encoder files are missing. *)
Definition half_written_disk : Disk :=
  {| crop_yield_model_pkl := Pickled sample_model;
     scaler_pkl := Unreadable (Exn UnpicklingError "invalid load key, 'x'.");
     le_area_pkl := Missing;
     le_item_pkl := Missing |}.

(** The default inputs without a press of the button. *)
Definition idle_inputs : Inputs :=
  {| year_value := 2024; avg_temp_value := 20.0; rainfall_value := 1200.0;
     pesticide_value := 50000.0;
     item_selected := Some "Maize"; area_selected := Some "Nigeria";
     predict_clicked := false |}.

(** A model that answers every batch with an empty array. *)
Definition silent_model : Model.t := {| Model.predict := fun _ => Ok [] |}.

Definition silent_disk : Disk :=
  disk_of silent_model sample_scaler
          (label_encoder sample_areas) (label_encoder sample_items).

(* ------------------------------------------------------------------ *)
(** ** Title case, position by position *)


(** The strings the model of [str.title()] is made for. *)
Fixpoint is_ascii (s : string) : bool :=
  match s with
  | EmptyString => true
  | String c rest => Nat.ltb (nat_of_ascii c) 128 && is_ascii rest
  end.



(* ------------------------------------------------------------------ *)
(** ** What valid inputs need of the artifacts *)













(* ------------------------------------------------------------------ *)
(** * Properties *)

Arguments title : simpl never.
Arguments format_f : simpl never.
Arguments float_repr : simpl never.
Arguments headline : simpl never.
Arguments yield_text : simpl never.
Arguments advice : simpl never.
Arguments files_not_found_message : simpl never.
Arguments encoders_not_loaded_message : simpl never.

(** ** Strings *)

Lemma prefix_app (s t : string) : prefix s (s ++ t) = true.
Proof.
  induction s as [| c s IH]; simpl.
  - now destruct t.
  - destruct (ascii_dec c c) as [_ | ne]; [exact IH | now destruct ne].
Qed.

Lemma is_infix_prefix (s t : string) : prefix s t = true -> is_infix s t = true.
Proof.
  intros H. destruct t; simpl; simpl in H; rewrite H; reflexivity.
Qed.

Lemma is_infix_app (before s after : string) :
  is_infix s (before ++ s ++ after) = true.
Proof.
  induction before as [| c before IH]; simpl.
  - apply is_infix_prefix, prefix_app.
  - rewrite IH. apply orb_true_r.
Qed.

Lemma is_infix_tail (before s : string) : is_infix s (before ++ s) = true.
Proof.
  pose proof (is_infix_app before s "") as H.
  assert (E : s ++ "" = s) by (clear; induction s; simpl; congruence).
  now rewrite E in H.
Qed.

Lemma str_in_In (x : string) (xs : list string) :
  str_in x xs = true <-> In x xs.
Proof.
  unfold str_in. rewrite existsb_exists. split.
  - intros [y [Hy E]]. apply String.eqb_eq in E. now subst.
  - intros H. exists x. split; [exact H | apply String.eqb_refl].
Qed.


(** ** The monad *)

Create HintDb script.

Lemma keeps_ret {A} (a : A) : keeps_globals (ret a).
Proof. intros w. reflexivity. Qed.

Lemma keeps_raise {A} (e : exn) : keeps_globals (@raise A e).
Proof. intros w. reflexivity. Qed.

Lemma keeps_render (el : element) : keeps_globals (render el).
Proof. intros w. reflexivity. Qed.

Lemma keeps_name {A} (id : string) (field : Globals -> option A) :
  keeps_globals (name id field).
Proof. intros w. unfold name. now destruct (field (globals w)). Qed.

Lemma keeps_invoke {A} (c : call) (r : result A) : keeps_globals (invoke c r).
Proof. intros w. unfold invoke. now destruct r. Qed.

Lemma keeps_getitem0 {A} (xs : list A) : keeps_globals (getitem0 xs).
Proof. intros w. now destruct xs. Qed.

Lemma keeps_str_title (choice : option string) : keeps_globals (str_title choice).
Proof. intros w. now destruct choice. Qed.

Lemma keeps_bind {A B} (c : M A) (k : A -> M B) :
  keeps_globals c -> (forall a, keeps_globals (k a)) -> keeps_globals (bind c k).
Proof.
  intros Hc Hk w. unfold bind. specialize (Hc w).
  destruct (c w) as [[a | e |] w']; simpl in *; try exact Hc.
  now rewrite Hk.
Qed.

Lemma keeps_try_except {A} (body : M A) (handler : exn -> M A) :
  keeps_globals body -> (forall e, keeps_globals (handler e)) ->
  keeps_globals (try_except body handler).
Proof.
  intros Hb Hh w. unfold try_except. specialize (Hb w).
  destruct (body w) as [[a | e |] w']; simpl in *; try exact Hb.
  now rewrite Hh.
Qed.

Lemma keeps_if {A} (b : bool) (c1 c2 : M A) :
  keeps_globals c1 -> keeps_globals c2 -> keeps_globals (if b then c1 else c2).
Proof. now destruct b. Qed.

#[local] Hint Resolve keeps_ret keeps_raise keeps_render keeps_name keeps_invoke
  keeps_getitem0 keeps_str_title keeps_if : script.

Ltac keeps :=
  repeat first
    [ apply keeps_bind; [ | intros ? ]
    | apply keeps_try_except; [ | intros ? ]
    | solve [ auto with script ] ].

Lemma keeps_encode_item (c : option string) : keeps_globals (encode_item c).
Proof. unfold encode_item. keeps. Qed.

Lemma keeps_encode_area (c : option string) : keeps_globals (encode_area c).
Proof. unfold encode_area. keeps. Qed.

#[local] Hint Resolve keeps_encode_item keeps_encode_area : script.

Lemma keeps_predict_failed (e : exn) : keeps_globals (predict_failed e).
Proof. unfold predict_failed, st_error. keeps. Qed.

Section Handler.

Variables (year : Z) (rainfall avg_temp pesticide_tonnes : float).
Variables (item_choice area_choice : option string).

Lemma keeps_predict_body :
  keeps_globals
    (predict_body year rainfall avg_temp pesticide_tonnes item_choice area_choice).
Proof.
  unfold predict_body, st_subheader, st_success, st_markdown, st_header. keeps.
Qed.

(** A press of the button rebinds none of the module-level names. *)
Lemma keeps_on_predict :
  keeps_globals
    (on_predict year rainfall avg_temp pesticide_tonnes item_choice area_choice).
Proof.
  unfold on_predict. apply keeps_bind; [auto with script |]. intros options.
  apply keeps_if.
  - apply keeps_render.
  - apply keeps_try_except.
    + apply keeps_predict_body.
    + apply keeps_predict_failed.
Qed.

End Handler.

Lemma stops_not_ret {A} (a : A) : never_stops (ret a).
Proof. intros w. discriminate. Qed.

Lemma stops_not_raise {A} (e : exn) : never_stops (@raise A e).
Proof. intros w. discriminate. Qed.

Lemma stops_not_render (el : element) : never_stops (render el).
Proof. intros w. discriminate. Qed.

Lemma stops_not_name {A} (id : string) (field : Globals -> option A) :
  never_stops (name id field).
Proof. intros w. unfold name. destruct (field (globals w)); discriminate. Qed.

Lemma stops_not_invoke {A} (c : call) (r : result A) : never_stops (invoke c r).
Proof. intros w. unfold invoke. destruct r; discriminate. Qed.

Lemma stops_not_getitem0 {A} (xs : list A) : never_stops (getitem0 xs).
Proof. intros w. destruct xs; discriminate. Qed.

Lemma stops_not_str_title (choice : option string) : never_stops (str_title choice).
Proof. intros w. destruct choice; discriminate. Qed.

Lemma stops_not_bind {A B} (c : M A) (k : A -> M B) :
  never_stops c -> (forall a, never_stops (k a)) -> never_stops (bind c k).
Proof.
  intros Hc Hk w. unfold bind. specialize (Hc w).
  destruct (c w) as [[a | e |] w']; simpl in *.
  - apply Hk.
  - discriminate.
  - now elim Hc.
Qed.

#[local] Hint Resolve stops_not_ret stops_not_raise stops_not_render stops_not_name
  stops_not_invoke stops_not_getitem0 stops_not_str_title : script.

Ltac stops_not :=
  repeat first
    [ apply stops_not_bind; [ | intros ? ]
    | solve [ auto with script ] ].

Lemma stops_not_predict_body year rainfall avg_temp pesticide_tonnes item_choice area_choice :
  never_stops
    (predict_body year rainfall avg_temp pesticide_tonnes item_choice area_choice).
Proof.
  unfold predict_body, encode_item, encode_area,
    st_subheader, st_success, st_markdown, st_header.
  stops_not.
Qed.

(** ** Loading *)

Ltac unfold_script :=
  unfold run, app, pressed, on_predict, get_options, options_body, options_failed,
    load_artifacts, load_body, load_failed, predict_failed,
    encode_item, encode_area, classes_of, pickle_load,
    st_sidebar_number_input, st_sidebar_slider, st_sidebar_selectbox,
    st_sidebar_button, st_title, st_header, st_subheader, st_markdown,
    st_success, st_error, st_sidebar_header, st_sidebar_error, st_stop,
    try_except, bind, ret, raise, render, assign, name, invoke, getitem0,
    str_title in *.

(** Either all four files unpickle, or the load stops the execution with a
    single error on the screen. *)
Lemma load_cases (d : Disk) :
  (exists m s a i, d = disk_of m s a i)
  \/ exists g msg,
       load_artifacts d fresh
       = (Stop, {| globals := g; screen := [Error Main msg]; calls := [] |})
       /\ (msg = files_not_found_message
           \/ exists e, msg = "An error occurred loading files: " ++ exn_text e).
Proof.
  destruct d as [[| e1 | m] [| e2 | s] [| e3 | a] [| e4 | i]];
    try (left; now exists m, s, a, i);
    right; unfold_script; simpl;
    try (eexists; eexists; split; [reflexivity | now left]).
  all: match goal with
       | |- context [exn_class_of ?e] =>
           destruct (exn_class_of e) eqn:E; simpl;
           eexists; eexists; (split; [reflexivity |]);
           first [ now left | right; now exists e ]
       end.
Qed.

Lemma run_halted (d : Disk) (u : Inputs) (w : World) :
  load_artifacts d fresh = (Stop, w) -> run d u = (Stop, w).
Proof. intros H. unfold run, app, bind. now rewrite H. Qed.

(** With the four artifacts loaded, the execution renders the page and the
    form, binds the two option lists and evaluates the button. *)
Lemma run_ready (m : Model.t) (s : Scaler.t) (a i : Encoder.t) (u : Inputs) :
  exists page,
    run (disk_of m s a i) u
    = (if predict_clicked u then pressed u else ret tt) (ready m s a i page)
    /\ In (Selectbox "Area/Country" (fst (options_after a i))) page
    /\ In (Selectbox "Crop Type" (snd (options_after a i))) page
    /\ error_texts page
       = match Encoder.classes_ a, Encoder.classes_ i with
         | Ok _, Ok _ => []
         | _, _ => ["Error reading encoder classes."]
         end.
Proof.
  unfold ready, options_after.
  unfold run, app, get_options, options_body, options_failed, load_artifacts,
    load_body, load_failed, classes_of, pickle_load,
    st_sidebar_number_input, st_sidebar_slider, st_sidebar_selectbox,
    st_sidebar_button, st_title, st_markdown, st_sidebar_header, st_sidebar_error,
    try_except, bind, ret, raise, render, assign, name, disk_of.
  simpl.
  destruct (Encoder.classes_ a) as [ca | ea]; simpl;
    [destruct (Encoder.classes_ i) as [ci | ei]; simpl |];
    (eexists; split; [destruct (predict_clicked u); reflexivity |]);
    simpl; tauto.
Qed.

(** ** The guard of the button *)

Lemma pressed_blocked (u : Inputs) (w : World) (options : list string) :
  area_options (globals w) = Some options ->
  str_in "Error" options = true ->
  pressed u w = (Ret tt, show (Error Main encoders_not_loaded_message) w).
Proof.
  intros Hopt Hin. unfold pressed, on_predict, bind, name.
  rewrite Hopt, Hin. reflexivity.
Qed.

Lemma pressed_passes (u : Inputs) (w : World) (options : list string) :
  area_options (globals w) = Some options ->
  str_in "Error" options = false ->
  pressed u w
  = try_except
      (predict_body (year_value u) (rainfall_value u) (avg_temp_value u)
                    (pesticide_value u) (item_selected u) (area_selected u))
      predict_failed w.
Proof.
  intros Hopt Hin. unfold pressed, on_predict, bind, name.
  rewrite Hopt, Hin. reflexivity.
Qed.

Lemma run_globals (m : Model.t) (s : Scaler.t) (a i : Encoder.t) (u : Inputs) :
  globals (snd (run (disk_of m s a i) u)) = globals (ready m s a i []).
Proof.
  destruct (run_ready m s a i u) as [page [E _]]. rewrite E.
  destruct (predict_clicked u).
  - unfold pressed. now rewrite keeps_on_predict.
  - reflexivity.
Qed.

Lemma run_blocked (m : Model.t) (s : Scaler.t) (a i : Encoder.t) (u : Inputs) :
  str_in "Error" (fst (options_after a i)) = true ->
  predict_clicked u = true ->
  exists page,
    run (disk_of m s a i) u
    = (Ret tt, show (Error Main encoders_not_loaded_message) (ready m s a i page))
    /\ In (Selectbox "Area/Country" (fst (options_after a i))) page
    /\ In (Selectbox "Crop Type" (snd (options_after a i))) page.
Proof.
  intros Hin Hclick.
  destruct (run_ready m s a i u) as [page [E [Harea [Hcrop _]]]].
  exists page. split; [| now split].
  rewrite E, Hclick. now apply pressed_blocked with (options := fst (options_after a i)).
Qed.

Lemma run_idle (m : Model.t) (s : Scaler.t) (a i : Encoder.t) (u : Inputs) :
  predict_clicked u = false ->
  exists page, run (disk_of m s a i) u = (Ret tt, ready m s a i page).
Proof.
  intros Hclick. destruct (run_ready m s a i u) as [page [E _]].
  exists page. now rewrite E, Hclick.
Qed.

Lemma error_texts_app (xs ys : list element) :
  error_texts (xs ++ ys) = (error_texts xs ++ error_texts ys)%list.
Proof.
  induction xs as [| x xs IH]; simpl; [reflexivity |].
  destruct x; simpl; now rewrite ?IH.
Qed.

Lemma options_after_unreadable (a i : Encoder.t) :
  (exists e, Encoder.classes_ a = Err e) \/ (exists e, Encoder.classes_ i = Err e) ->
  options_after a i = (["Error"], ["Error"]).
Proof.
  unfold options_after. intros [[e H] | [e H]]; rewrite H.
  - reflexivity.
  - now destruct (Encoder.classes_ a).
Qed.

(** ** Claims *)

(** C5. If any of the four artifact files is missing, the execution is
    stopped by the load: the screen holds a single error message (no title,
    no text, no widget), the outcome is [Stop], and no method of any
    artifact has been called, whatever the widgets hold. *)
Theorem C5_missing_artifact_halts (d : Disk) (u : Inputs) :
  crop_yield_model_pkl d = Missing \/ scaler_pkl d = Missing
  \/ le_area_pkl d = Missing \/ le_item_pkl d = Missing ->
  exists g msg,
    run d u = (Stop, {| globals := g; screen := [Error Main msg]; calls := [] |})
    /\ (msg = files_not_found_message
        \/ exists e, msg = "An error occurred loading files: " ++ exn_text e).
Proof.
  intros Hmissing.
  destruct (load_cases d) as [[m [s [a [i E]]]] | [g [msg [Hload Hmsg]]]].
  - subst d. simpl in Hmissing.
    destruct Hmissing as [H | [H | [H | H]]]; discriminate H.
  - exists g, msg. split; [now apply run_halted | exact Hmsg].
Qed.

(** C2. If reading the class list of either encoder fails, both option
    lists are ["Error"], and an execution triggered by the button only adds
    the configuration error to the screen: no method of the encoders, the
    scaler or the model is called. *)
Theorem C2_unreadable_classes_block_predict
  (m : Model.t) (s : Scaler.t) (a i : Encoder.t) (u : Inputs) :
  (exists e, Encoder.classes_ a = Err e) \/ (exists e, Encoder.classes_ i = Err e) ->
  let w := snd (run (disk_of m s a i) u) in
  area_options (globals w) = Some ["Error"]
  /\ item_options (globals w) = Some ["Error"]
  /\ fst (run (disk_of m s a i) u) = Ret tt
  /\ calls w = []
  /\ (predict_clicked u = true ->
      exists page,
        screen w = (page ++ [Error Main encoders_not_loaded_message])%list
        /\ In (Selectbox "Area/Country" ["Error"]) page
        /\ In (Selectbox "Crop Type" ["Error"]) page).
Proof.
  intros Hbad w. subst w.
  pose proof (options_after_unreadable a i Hbad) as Hopt.
  rewrite run_globals. unfold ready at 1 2. simpl. rewrite Hopt. simpl.
  split; [reflexivity |]. split; [reflexivity |].
  destruct (predict_clicked u) eqn:Hclick.
  - destruct (run_blocked m s a i u) as [page [E Hpage]];
      [rewrite Hopt; reflexivity | exact Hclick |].
    rewrite E, Hopt in *. simpl.
    split; [reflexivity |]. split; [reflexivity |].
    intros _. exists page. split; [reflexivity | exact Hpage].
  - destruct (run_idle m s a i u Hclick) as [page E]. rewrite E. simpl.
    split; [reflexivity |]. split; [reflexivity |]. discriminate.
Qed.

(** [C5_missing_artifact_halts] on a disk without [le_item.pkl]. *)
Lemma C5_witness :
  (crop_yield_model_pkl missing_disk = Missing \/ scaler_pkl missing_disk = Missing
   \/ le_area_pkl missing_disk = Missing \/ le_item_pkl missing_disk = Missing)
  /\ exists g msg,
       run missing_disk sample_inputs
       = (Stop, {| globals := g; screen := [Error Main msg]; calls := [] |})
       /\ (msg = files_not_found_message
           \/ exists e, msg = "An error occurred loading files: " ++ exn_text e).
Proof.
  assert (H : crop_yield_model_pkl missing_disk = Missing
              \/ scaler_pkl missing_disk = Missing
              \/ le_area_pkl missing_disk = Missing
              \/ le_item_pkl missing_disk = Missing)
    by (right; right; right; reflexivity).
  split; [exact H | exact (C5_missing_artifact_halts missing_disk sample_inputs H)].
Defined.

(** [C2_unreadable_classes_block_predict] with a dictionary pickled as the item
    encoder. *)
Lemma C2_witness :
  ((exists e, Encoder.classes_ (label_encoder sample_areas) = Err e)
   \/ (exists e, Encoder.classes_ not_an_encoder = Err e))
  /\ area_options (globals (snd (run dict_disk sample_inputs))) = Some ["Error"]
  /\ calls (snd (run dict_disk sample_inputs)) = [].
Proof.
  assert (H : (exists e, Encoder.classes_ (label_encoder sample_areas) = Err e)
              \/ (exists e, Encoder.classes_ not_an_encoder = Err e))
    by (right; eexists; reflexivity).
  split; [exact H |].
  pose proof (C2_unreadable_classes_block_predict
                sample_model sample_scaler (label_encoder sample_areas)
                not_an_encoder sample_inputs H) as C.
  simpl in C. split; [apply C | apply C].
Defined.

(** C10. The guard looks for the string "Error" among the area options, so
    when the area encoder's learned classes contain "Error" (all artifacts
    loaded, any inputs), an execution triggered by the button is rejected
    with the configuration error and calls no artifact. *)
Theorem C10_error_class_blocks_predict
  (m : Model.t) (s : Scaler.t) (a i : Encoder.t) (u : Inputs)
  (area_classes : list string) :
  Encoder.classes_ a = Ok area_classes ->
  In "Error" area_classes ->
  predict_clicked u = true ->
  let w := snd (run (disk_of m s a i) u) in
  fst (run (disk_of m s a i) u) = Ret tt
  /\ calls w = []
  /\ exists page, screen w = (page ++ [Error Main encoders_not_loaded_message])%list.
Proof.
  intros Hclasses Hin Hclick w. subst w.
  assert (Hguard : str_in "Error" (fst (options_after a i)) = true).
  { unfold options_after. rewrite Hclasses.
    destruct (Encoder.classes_ i); simpl.
    - now apply str_in_In.
    - reflexivity. }
  destruct (run_blocked m s a i u Hguard Hclick) as [page [E _]].
  rewrite E. simpl. repeat split. now exists page.
Qed.

(** [C10_error_class_blocks_predict] with area classes that begin with "Error". *)
Lemma C10_witness :
  Encoder.classes_ (label_encoder ("Error" :: sample_areas))
  = Ok ("Error" :: sample_areas)
  /\ In "Error" ("Error" :: sample_areas)
  /\ predict_clicked sample_inputs = true
  /\ calls (snd (run error_area_disk sample_inputs)) = []
  /\ exists page,
       screen (snd (run error_area_disk sample_inputs))
       = (page ++ [Error Main encoders_not_loaded_message])%list.
Proof.
  assert (H1 : Encoder.classes_ (label_encoder ("Error" :: sample_areas))
               = Ok ("Error" :: sample_areas)) by reflexivity.
  assert (H2 : In "Error" ("Error" :: sample_areas)) by (left; reflexivity).
  assert (H3 : predict_clicked sample_inputs = true) by reflexivity.
  split; [exact H1 |]. split; [exact H2 |]. split; [exact H3 |].
  apply (C10_error_class_blocks_predict
           sample_model sample_scaler (label_encoder ("Error" :: sample_areas))
           (label_encoder sample_items) sample_inputs ("Error" :: sample_areas)
           H1 H2 H3).
Defined.

(** C9, as the claim states it, fails: with an item encoder whose learned
    classes are exactly ["Error"] and an ordinary area encoder, the item
    option list equals ["Error"] while the area option list does not, and the
    guard lets the prediction through (the model is called and no
    configuration error is shown). *)
Lemma C9_counterexample :
  let w := snd (run error_crop_disk error_crop_inputs) in
  item_options (globals w) = Some ["Error"]
  /\ area_options (globals w) <> Some ["Error"]
  /\ (exists X, In (model_predict X) (calls w))
  /\ ~ In (Error Main encoders_not_loaded_message) (screen w).
Proof.
  split; [reflexivity |]. split; [discriminate |]. split.
  - eexists. vm_compute. do 3 right. left. reflexivity.
  - vm_compute. intros H.
    repeat (destruct H as [H | H]; [discriminate H |]). exact H.
Qed.

(** C9, amended. Provided neither encoder's learned class list is itself
    exactly ["Error"], the area option list is ["Error"] if and only if the
    item option list is, and whenever the item option list is ["Error"] an
    execution triggered by the button is blocked by the guard: it calls no
    artifact and ends with the configuration error. *)
Theorem C9_option_lists_fail_together
  (m : Model.t) (s : Scaler.t) (a i : Encoder.t) (u : Inputs) :
  Encoder.classes_ a <> Ok ["Error"] ->
  Encoder.classes_ i <> Ok ["Error"] ->
  let w := snd (run (disk_of m s a i) u) in
  (area_options (globals w) = Some ["Error"]
   <-> item_options (globals w) = Some ["Error"])
  /\ (item_options (globals w) = Some ["Error"] ->
      predict_clicked u = true ->
      calls w = []
      /\ exists page,
           screen w = (page ++ [Error Main encoders_not_loaded_message])%list).
Proof.
  intros Ha Hi w. subst w. rewrite run_globals. unfold ready at 1 2 3. simpl.
  assert (Hcases :
            options_after a i = (["Error"], ["Error"])
            \/ (fst (options_after a i) <> ["Error"]
                /\ snd (options_after a i) <> ["Error"])).
  { unfold options_after.
    destruct (Encoder.classes_ a) as [ca | ea]; [| now left].
    destruct (Encoder.classes_ i) as [ci | ei]; [| now left].
    right. simpl. split; intros E; subst; [now apply Ha | now apply Hi]. }
  destruct Hcases as [E | [Hna Hni]].
  - rewrite E. simpl. split; [tauto |]. intros _ Hclick.
    destruct (run_blocked m s a i u) as [page [R _]];
      [rewrite E; reflexivity | exact Hclick |].
    rewrite R. simpl. split; [reflexivity | now exists page].
  - split.
    + split; intros E; injection E as E; contradiction.
    + intros E. injection E as E. contradiction.
Qed.

(** [C9_option_lists_fail_together] with a dictionary pickled as the item
    encoder: both lists are ["Error"]. *)
Lemma C9_witness :
  Encoder.classes_ (label_encoder sample_areas) <> Ok ["Error"]
  /\ Encoder.classes_ not_an_encoder <> Ok ["Error"]
  /\ (area_options (globals (snd (run dict_disk sample_inputs))) = Some ["Error"]
      <-> item_options (globals (snd (run dict_disk sample_inputs))) = Some ["Error"]).
Proof.
  assert (H1 : Encoder.classes_ (label_encoder sample_areas) <> Ok ["Error"])
    by discriminate.
  assert (H2 : Encoder.classes_ not_an_encoder <> Ok ["Error"]) by discriminate.
  split; [exact H1 |]. split; [exact H2 |].
  apply (C9_option_lists_fail_together
           sample_model sample_scaler (label_encoder sample_areas) not_an_encoder
           sample_inputs H1 H2).
Defined.

(** ** The body of the handler *)

(** Case analysis on the scrutinee of an innermost [match] of the goal. *)
Ltac crunch :=
  repeat (simpl;
          match goal with
          | |- context [match ?x with _ => _ end] =>
              lazymatch x with
              | context [match _ with _ => _ end] => fail
              | _ => destruct x eqn:?
              end
          end).

(** A call of the scaler made by the handler has the frame of lines 62-65
    as its argument, built from the first codes the two encoders returned. *)
Lemma scaler_call_shape year rainfall avg_temp pesticide_tonnes item_choice area_choice
  (w : World) (X : DataFrame) :
  In (scaler_transform X)
     (calls (snd (try_except
                    (predict_body year rainfall avg_temp pesticide_tonnes
                                  item_choice area_choice)
                    predict_failed w))) ->
  In (scaler_transform X) (calls w)
  \/ exists a i area_encoded item_encoded area_rest item_rest,
       le_area (globals w) = Some a /\ le_item (globals w) = Some i
       /\ Encoder.transform a [area_choice] = Ok (area_encoded :: area_rest)
       /\ Encoder.transform i [item_choice] = Ok (item_encoded :: item_rest)
       /\ X = input_data year rainfall avg_temp pesticide_tonnes
                         area_encoded item_encoded.
Proof.
  unfold predict_body. unfold_script. crunch.
  all: intros H.
  all: repeat (apply in_app_or in H; destruct H as [H | H]).
  all: try (left; exact H).
  all: simpl in H; repeat (destruct H as [H | H]; try discriminate H);
    try contradiction.
  all: injection H as <-; right.
  all: repeat eexists; eauto.
Qed.


(** C1. Whenever an execution calls the scaler, the frame it passes has the
    six columns in the order year, rainfall, avg_temp, pesticide_tonnes,
    area code, item code, the codes being the first ones the two encoders
    returned for the chosen area and item.  In particular, for the inputs
    (2024, 1200.0, 20.0, 50000.0, "Nigeria", "Maize") with encoders that map
    "Nigeria" to 7 and "Maize" to 3 the row is
    [2024, 1200.0, 20.0, 50000.0, 7, 3]. *)
Theorem C1_feature_vector_order (d : Disk) (u : Inputs) (X : DataFrame) :
  In (scaler_transform X) (calls (snd (run d u))) ->
  (exists a i area_encoded item_encoded area_rest item_rest,
     le_area_pkl d = Pickled a /\ le_item_pkl d = Pickled i
     /\ Encoder.transform a [area_selected u] = Ok (area_encoded :: area_rest)
     /\ Encoder.transform i [item_selected u] = Ok (item_encoded :: item_rest)
     /\ X = {| data := [[Int (year_value u); Float (rainfall_value u);
                         Float (avg_temp_value u); Float (pesticide_value u);
                         Int area_encoded; Int item_encoded]];
               columns := feature_names |})
  /\ (forall a i,
        le_area_pkl d = Pickled a -> le_item_pkl d = Pickled i ->
        year_value u = 2024 -> rainfall_value u = 1200.0%float ->
        avg_temp_value u = 20.0%float -> pesticide_value u = 50000.0%float ->
        area_selected u = Some "Nigeria" -> item_selected u = Some "Maize" ->
        Encoder.transform a [Some "Nigeria"] = Ok [7] ->
        Encoder.transform i [Some "Maize"] = Ok [3] ->
        data X = [[Int 2024; Float 1200.0; Float 20.0; Float 50000.0; Int 7; Int 3]]).
Proof.
  intros Hcall.
  assert (General :
    exists a i area_encoded item_encoded area_rest item_rest,
      le_area_pkl d = Pickled a /\ le_item_pkl d = Pickled i
      /\ Encoder.transform a [area_selected u] = Ok (area_encoded :: area_rest)
      /\ Encoder.transform i [item_selected u] = Ok (item_encoded :: item_rest)
      /\ X = input_data (year_value u) (rainfall_value u) (avg_temp_value u)
                        (pesticide_value u) area_encoded item_encoded).
  { destruct (load_cases d) as [[m [s [a [i E]]]] | [g [msg [Hload _]]]].
    - subst d. destruct (run_ready m s a i u) as [page [E _]].
      rewrite E in Hcall. destruct (predict_clicked u); [| contradiction].
      destruct (str_in "Error" (fst (options_after a i))) eqn:Hguard.
      + rewrite (pressed_blocked u _ (fst (options_after a i))) in Hcall;
          [contradiction | reflexivity | exact Hguard].
      + rewrite (pressed_passes u _ (fst (options_after a i))) in Hcall;
          [| reflexivity | exact Hguard].
        apply scaler_call_shape in Hcall.
        destruct Hcall as [Hnone | [a' [i' [ca [ci [ra [ri H]]]]]]];
          [contradiction |].
        destruct H as [Ha [Hi [Ta [Ti HX]]]].
        simpl in Ha, Hi. injection Ha as <-. injection Hi as <-.
        exists a, i, ca, ci, ra, ri. now repeat split.
    - rewrite (run_halted d u _ Hload) in Hcall. contradiction. }
  split.
  - exact General.
  - intros a i Hav Hiv Hy Hr Ht Hp Harea Hitem Ta Ti.
    destruct General as [a' [i' [ca [ci [ra [ri [Ha' [Hi' [Ta' [Ti' HX]]]]]]]]]].
    rewrite Hav in Ha'. rewrite Hiv in Hi'.
    injection Ha' as <-. injection Hi' as <-.
    rewrite Harea, Ta in Ta'. rewrite Hitem, Ti in Ti'.
    injection Ta' as <- _. injection Ti' as <- _.
    rewrite HX, Hy, Hr, Ht, Hp. reflexivity.
Qed.

(** [C1_feature_vector_order] on the sample artifacts, which give "Nigeria"
    the code 7 and "Maize" the code 3. *)
Lemma C1_witness :
  let X := {| data := [[Int 2024; Float 1200.0; Float 20.0; Float 50000.0;
                        Int 7; Int 3]];
              columns := feature_names |} in
  In (scaler_transform X) (calls (snd (run sample_disk sample_inputs)))
  /\ exists a i area_encoded item_encoded area_rest item_rest,
       le_area_pkl sample_disk = Pickled a /\ le_item_pkl sample_disk = Pickled i
       /\ Encoder.transform a [area_selected sample_inputs]
          = Ok (area_encoded :: area_rest)
       /\ Encoder.transform i [item_selected sample_inputs]
          = Ok (item_encoded :: item_rest)
       /\ X = {| data := [[Int (year_value sample_inputs);
                           Float (rainfall_value sample_inputs);
                           Float (avg_temp_value sample_inputs);
                           Float (pesticide_value sample_inputs);
                           Int area_encoded; Int item_encoded]];
                 columns := feature_names |}.
Proof.
  intros X.
  assert (H : In (scaler_transform X) (calls (snd (run sample_disk sample_inputs))))
    by (vm_compute; right; right; left; reflexivity).
  split; [exact H |].
  exact (proj1 (C1_feature_vector_order sample_disk sample_inputs X H)).
Defined.

(** ** Formatting *)




(** *** Title case *)












(** ** Failures inside the handler *)

Lemma pressed_returns (u : Inputs) (w : World) (options : list string) :
  area_options (globals w) = Some options -> fst (pressed u w) = Ret tt.
Proof.
  intros Hopt. destruct (str_in "Error" options) eqn:Hguard.
  - now rewrite (pressed_blocked u w options Hopt Hguard).
  - rewrite (pressed_passes u w options Hopt Hguard). unfold try_except.
    pose proof (stops_not_predict_body
                  (year_value u) (rainfall_value u) (avg_temp_value u)
                  (pesticide_value u) (item_selected u) (area_selected u) w) as Hstop.
    destruct (predict_body _ _ _ _ _ _ w) as [[[] | e |] w1]; simpl in *.
    + reflexivity.
    + reflexivity.
    + now elim Hstop.
Qed.

Lemma pressed_failure (u : Inputs) (w w1 : World) (options : list string) (e : exn) :
  area_options (globals w) = Some options ->
  str_in "Error" options = false ->
  predict_body (year_value u) (rainfall_value u) (avg_temp_value u)
               (pesticide_value u) (item_selected u) (area_selected u) w
  = (Raise e, w1) ->
  pressed u w
  = (Ret tt,
     show (Error Main ("An error occurred during prediction: " ++ exn_text e)) w1).
Proof.
  intros Hopt Hguard Hbody.
  rewrite (pressed_passes u w options Hopt Hguard).
  unfold try_except. rewrite Hbody. reflexivity.
Qed.

Lemma run_returns (m : Model.t) (s : Scaler.t) (a i : Encoder.t) (u : Inputs) :
  fst (run (disk_of m s a i) u) = Ret tt.
Proof.
  destruct (run_ready m s a i u) as [page [E _]]. rewrite E.
  destruct (predict_clicked u); [| reflexivity].
  now apply pressed_returns with (options := fst (options_after a i)).
Qed.

(** An execution of the script ends normally or is stopped by the load; no
    exception leaves it. *)
Lemma run_never_raises (d : Disk) (u : Inputs) (e : exn) :
  fst (run d u) <> Raise e.
Proof.
  destruct (load_cases d) as [[m [s [a [i E]]]] | [g [msg [Hload _]]]].
  - subst d. rewrite run_returns. discriminate.
  - rewrite (run_halted d u _ Hload). discriminate.
Qed.

(** C3. For a press of the button in any state in which the option lists
    are bound: the handler returns normally (no exception leaves it, and it
    does not stop the execution); the module-level names, among them the
    model, the scaler and both encoders, are what they were; and whenever
    the body of the [try] (encoding, assembly, scaling, prediction,
    rendering) raises [e], what the press adds to the screen is one error
    whose text ends with [str(e)]. *)
Theorem C3_prediction_errors_are_caught
  (u : Inputs) (w : World) (options : list string) :
  area_options (globals w) = Some options ->
  fst (pressed u w) = Ret tt
  /\ globals (snd (pressed u w)) = globals w
  /\ (forall e w1,
        str_in "Error" options = false ->
        predict_body (year_value u) (rainfall_value u) (avg_temp_value u)
                     (pesticide_value u) (item_selected u) (area_selected u) w
        = (Raise e, w1) ->
        snd (pressed u w)
        = show (Error Main ("An error occurred during prediction: " ++ exn_text e)) w1
        /\ is_infix (exn_text e)
                    ("An error occurred during prediction: " ++ exn_text e) = true).
Proof.
  intros Hopt. split; [| split].
  - exact (pressed_returns u w options Hopt).
  - unfold pressed. apply keeps_on_predict.
  - intros e w1 Hguard Hbody.
    rewrite (pressed_failure u w w1 options e Hopt Hguard Hbody).
    split; [reflexivity | apply is_infix_tail].
Qed.

(** [C3_prediction_errors_are_caught] for an area the encoder has not
    learned: the [ValueError] of the encoder is shown. *)
Lemma C3_witness :
  area_options (globals (ready sample_model sample_scaler
                               (label_encoder sample_areas)
                               (label_encoder sample_items) []))
  = Some sample_areas
  /\ fst (pressed unseen_inputs
                  (ready sample_model sample_scaler (label_encoder sample_areas)
                         (label_encoder sample_items) [])) = Ret tt
  /\ screen (snd (pressed unseen_inputs
                          (ready sample_model sample_scaler
                                 (label_encoder sample_areas)
                                 (label_encoder sample_items) [])))
     = [Error Main "An error occurred during prediction: y contains previously unseen labels: 'Atlantis'"].
Proof.
  assert (H : area_options (globals (ready sample_model sample_scaler
                                           (label_encoder sample_areas)
                                           (label_encoder sample_items) []))
              = Some sample_areas) by reflexivity.
  split; [exact H |].
  destruct (C3_prediction_errors_are_caught unseen_inputs _ sample_areas H)
    as [Hret [_ Hshown]].
  split; [exact Hret |].
  destruct (Hshown _ _ eq_refl eq_refl) as [Hw _].
  rewrite Hw. reflexivity.
Defined.

(** ** Error messages *)

(** C4, as the claim states it, fails.  With [le_item.pkl] missing the only
    message is the fixed text about model files, which does not contain the
    text of the [FileNotFoundError]; and when an encoder has no [classes_]
    the two messages shown (sidebar and guard) are fixed texts that do not
    contain the text of the [AttributeError]. *)
Lemma C4_counterexample :
  (exists e w1,
     load_body missing_disk fresh = (Raise e, w1)
     /\ exn_text e = "[Errno 2] No such file or directory: 'le_item.pkl'"
     /\ error_texts (screen (snd (run missing_disk sample_inputs)))
        = ["Model files not found! Please run the training script first."]
     /\ is_infix (exn_text e)
                 "Model files not found! Please run the training script first."
        = false)
  /\ (exists e,
        Encoder.classes_ not_an_encoder = Err e
        /\ error_texts (screen (snd (run dict_disk sample_inputs)))
           = ["Error reading encoder classes.";
              "Cannot make prediction. Encoders were not loaded correctly."]
        /\ is_infix (exn_text e) "Error reading encoder classes." = false
        /\ is_infix (exn_text e)
                    "Cannot make prediction. Encoders were not loaded correctly."
           = false).
Proof.
  split.
  - eexists. eexists. split; [reflexivity |].
    split; [reflexivity |]. split; reflexivity.
  - eexists. split; [reflexivity |].
    split; [reflexivity |]. split; reflexivity.
Qed.

(** C4, amended.  When the load raises an exception [e] that is not a
    [FileNotFoundError], and when the body of the prediction raises [e], the
    message shown is a fixed prefix followed by [str(e)], so it contains the
    exception text.  A [FileNotFoundError] during the load and a failure to
    read the encoder classes are reported by fixed texts. *)
Theorem C4_messages_with_exception_text (e : exn) (w w1 : World) :
  (forall d,
     load_body d w = (Raise e, w1) ->
     exn_class_of e <> FileNotFoundError ->
     load_artifacts d w
     = (Stop, show (Error Main ("An error occurred loading files: " ++ exn_text e)) w1))
  /\ (forall u options,
        area_options (globals w) = Some options ->
        str_in "Error" options = false ->
        predict_body (year_value u) (rainfall_value u) (avg_temp_value u)
                     (pesticide_value u) (item_selected u) (area_selected u) w
        = (Raise e, w1) ->
        pressed u w
        = (Ret tt,
           show (Error Main ("An error occurred during prediction: " ++ exn_text e)) w1))
  /\ is_infix (exn_text e) ("An error occurred loading files: " ++ exn_text e) = true
  /\ is_infix (exn_text e) ("An error occurred during prediction: " ++ exn_text e) = true
  /\ (forall d,
        load_body d w = (Raise e, w1) ->
        exn_class_of e = FileNotFoundError ->
        load_artifacts d w = (Stop, show (Error Main files_not_found_message) w1))
  /\ (options_body w = (Raise e, w1) ->
      screen (snd (get_options w))
      = (screen w1 ++ [Error Sidebar "Error reading encoder classes."])%list).
Proof.
  repeat split.
  - intros d Hbody Hclass. unfold load_artifacts, try_except. rewrite Hbody.
    unfold load_failed. destruct (exn_class_of e); try reflexivity.
    now elim Hclass.
  - intros u options Hopt Hguard Hbody.
    exact (pressed_failure u w w1 options e Hopt Hguard Hbody).
  - apply is_infix_tail.
  - apply is_infix_tail.
  - intros d Hbody Hclass. unfold load_artifacts, try_except. rewrite Hbody.
    unfold load_failed. rewrite Hclass. reflexivity.
  - intros Hbody. unfold get_options, try_except. rewrite Hbody. reflexivity.
Qed.

(** [C4_messages_with_exception_text] on a disk whose [scaler.pkl] is not a
    pickle. *)
Lemma C4_witness :
  load_body corrupt_disk fresh
  = (Raise (Exn UnpicklingError "invalid load key, 'x'."),
     {| globals := {| model := Some sample_model; scaler := None;
                      le_area := None; le_item := None;
                      area_options := None; item_options := None |};
        screen := []; calls := [] |})
  /\ UnpicklingError <> FileNotFoundError
  /\ screen (snd (load_artifacts corrupt_disk fresh))
     = [Error Main "An error occurred loading files: invalid load key, 'x'."].
Proof.
  assert (H1 : load_body corrupt_disk fresh
               = (Raise (Exn UnpicklingError "invalid load key, 'x'."),
                  {| globals := {| model := Some sample_model; scaler := None;
                                   le_area := None; le_item := None;
                                   area_options := None; item_options := None |};
                     screen := []; calls := [] |})) by reflexivity.
  assert (H2 : UnpicklingError <> FileNotFoundError) by discriminate.
  split; [exact H1 |]. split; [exact H2 |].
  rewrite (proj1 (C4_messages_with_exception_text _ _ _) corrupt_disk H1 H2).
  reflexivity.
Defined.

(* ------------------------------------------------------------------ *)
(** * Further properties of the script *)

(** ** Loading, in full *)

Lemma first_failure_loaded (d : Disk) :
  first_failure d = None <-> exists m s a i, d = disk_of m s a i.
Proof.
  split.
  - destruct d as [[| e1 | m] [| e2 | s] [| e3 | a] [| e4 | i]];
      try discriminate. intros _. now exists m, s, a, i.
  - intros [m [s [a [i E]]]]. now subst d.
Qed.

Lemma load_first_failure (d : Disk) (e : exn) :
  first_failure d = Some e ->
  exists g,
    load_artifacts d fresh
    = (Stop, {| globals := g; screen := [Error Main (load_message e)]; calls := [] |}).
Proof.
  unfold load_message.
  destruct d as [[| e1 | m] [| e2 | s] [| e3 | a] [| e4 | i]];
    unfold first_failure; simpl; intros H; try discriminate H;
    injection H as <-; unfold_script; simpl;
    try (eexists; reflexivity).
  all: match goal with
       | |- context [exn_class_of ?x] =>
           destruct (exn_class_of x); simpl; eexists; reflexivity
       end.
Qed.

(** The load stops the execution exactly when one of the four files does
    not unpickle (missing or unreadable alike); the screen then holds one
    error of the main panel and nothing else, and no method of an artifact
    has been called.  When all four unpickle, the execution ends normally. *)
Theorem load_failure_stops (d : Disk) (u : Inputs) :
  (fst (run d u) = Stop <-> first_failure d <> None)
  /\ (fst (run d u) = Ret tt <-> first_failure d = None)
  /\ (first_failure d <> None ->
      exists msg,
        screen (snd (run d u)) = [Error Main msg] /\ calls (snd (run d u)) = []).
Proof.
  destruct (first_failure d) as [e |] eqn:F.
  - destruct (load_first_failure d e F) as [g Hload].
    rewrite (run_halted d u _ Hload). simpl.
    split; [split; [discriminate | reflexivity] |].
    split; [split; discriminate |].
    intros _. now exists (load_message e).
  - apply first_failure_loaded in F. destruct F as [m [s [a [i E]]]]. subst d.
    rewrite run_returns.
    split; [split; [discriminate | intros H; now elim H] |].
    split; [split; reflexivity |].
    intros H. now elim H.
Qed.

(** Only the first file that fails, in the order model, scaler, area
    encoder, item encoder, is reported: its exception chooses between the
    fixed text for a [FileNotFoundError] and the text that carries
    [str(e)]; the files after it play no part. *)
Theorem load_reports_first_failure (d : Disk) (u : Inputs) (e : exn) :
  first_failure d = Some e ->
  screen (snd (run d u)) = [Error Main (load_message e)]
  /\ (exn_class_of e = FileNotFoundError ->
      screen (snd (run d u)) = [Error Main files_not_found_message])
  /\ (exn_class_of e <> FileNotFoundError ->
      screen (snd (run d u))
      = [Error Main ("An error occurred loading files: " ++ exn_text e)]).
Proof.
  intros F. destruct (load_first_failure d e F) as [g Hload].
  rewrite (run_halted d u _ Hload). simpl.
  split; [reflexivity |]. unfold load_message. split.
  - intros C. now rewrite C.
  - intros C. destruct (exn_class_of e); try reflexivity. now elim C.
Qed.

(** [load_reports_first_failure] on a disk whose scaler file is unreadable
    and whose encoder files are missing: the unreadable file is reported. *)
Lemma load_reports_first_failure_witness :
  first_failure half_written_disk
  = Some (Exn UnpicklingError "invalid load key, 'x'.")
  /\ screen (snd (run half_written_disk sample_inputs))
     = [Error Main "An error occurred loading files: invalid load key, 'x'."].
Proof.
  assert (H : first_failure half_written_disk
              = Some (Exn UnpicklingError "invalid load key, 'x'."))
    by reflexivity.
  split; [exact H |].
  exact (proj1 (load_reports_first_failure half_written_disk sample_inputs _ H)).
Defined.

(** ** The page *)

(** With the four artifacts loaded, the button is evaluated with exactly
    [form_page] on the screen. *)
Lemma run_ready_page (m : Model.t) (s : Scaler.t) (a i : Encoder.t) (u : Inputs) :
  run (disk_of m s a i) u
  = (if predict_clicked u then pressed u else ret tt)
      (ready m s a i (form_page a i)).
Proof.
  unfold ready, form_page, options_after.
  unfold run, app, get_options, options_body, options_failed, load_artifacts,
    load_body, load_failed, classes_of, pickle_load,
    st_sidebar_number_input, st_sidebar_slider, st_sidebar_selectbox,
    st_sidebar_button, st_title, st_markdown, st_sidebar_header, st_sidebar_error,
    try_except, bind, ret, raise, render, assign, name, disk_of.
  simpl.
  destruct (Encoder.classes_ a) as [ca | ea]; simpl;
    [destruct (Encoder.classes_ i) as [ci | ei]; simpl |];
    destruct (predict_clicked u); reflexivity.
Qed.

Lemma form_page_quiet (a i : Encoder.t) :
  main_errors (form_page a i) = [] /\ results (form_page a i) = [].
Proof.
  unfold form_page.
  destruct (Encoder.classes_ a); [destruct (Encoder.classes_ i) |]; split; reflexivity.
Qed.

Lemma main_errors_app (xs ys : list element) :
  main_errors (xs ++ ys) = (main_errors xs ++ main_errors ys)%list.
Proof.
  induction xs as [| x xs IH]; simpl; [reflexivity |].
  destruct x as [| | | | | [] | | | |]; simpl; now rewrite ?IH.
Qed.

Lemma results_app (xs ys : list element) :
  results (xs ++ ys) = (results xs ++ results ys)%list.
Proof.
  induction xs as [| x xs IH]; simpl; [reflexivity |].
  destruct x; simpl; now rewrite ?IH.
Qed.

(** An execution that was not triggered by the button (any other
    interaction), the artifacts being loaded, renders the page and nothing
    more: it ends normally, calls no method of any artifact, and shows no
    result and no error in the main panel. *)
Theorem no_press_no_prediction
  (m : Model.t) (s : Scaler.t) (a i : Encoder.t) (u : Inputs) :
  predict_clicked u = false ->
  run (disk_of m s a i) u = (Ret tt, ready m s a i (form_page a i))
  /\ calls (snd (run (disk_of m s a i) u)) = []
  /\ results (screen (snd (run (disk_of m s a i) u))) = []
  /\ main_errors (screen (snd (run (disk_of m s a i) u))) = [].
Proof.
  intros Hclick. rewrite run_ready_page, Hclick. simpl.
  destruct (form_page_quiet a i) as [He Hr]. now repeat split.
Qed.

(** [no_press_no_prediction] on the sample artifacts. *)
Lemma no_press_no_prediction_witness :
  predict_clicked idle_inputs = false
  /\ calls (snd (run sample_disk idle_inputs)) = []
  /\ results (screen (snd (run sample_disk idle_inputs))) = [].
Proof.
  assert (H : predict_clicked idle_inputs = false) by reflexivity.
  split; [exact H |].
  destruct (no_press_no_prediction
              sample_model sample_scaler (label_encoder sample_areas)
              (label_encoder sample_items) idle_inputs H) as [_ [Hc [Hr _]]].
  split; [exact Hc | exact Hr].
Defined.

(** ** What a press adds *)

(** What the body of the [try] has rendered when it ends: the result block
    when it returns, and nothing or only the headline when it raises. *)
Lemma body_adds (u : Inputs) (w : World) :
  let r := predict_body (year_value u) (rainfall_value u) (avg_temp_value u)
                        (pesticide_value u) (item_selected u) (area_selected u) w in
  (fst r = Ret tt ->
   exists item area p,
     screen (snd r)
     = (screen w
        ++ [Subheader (headline item area);
            Success (yield_text p);
            Markdown "---";
            Header Main "How this prediction can help:";
            Markdown (advice p (pesticide_value u) (rainfall_value u)
                             (avg_temp_value u))])%list)
  /\ (forall e,
        fst r = Raise e ->
        screen (snd r) = screen w
        \/ exists item area,
             screen (snd r) = (screen w ++ [Subheader (headline item area)])%list).
Proof.
  unfold predict_body. unfold_script. unfold show, record. crunch.
  all: unfold ret, raise; simpl.
  all: split; [intros H; try discriminate H | intros e0 H; try discriminate H].
  all: repeat rewrite <- app_assoc; simpl.
  all: first [ now left
             | right; eexists; eexists; reflexivity
             | eexists; eexists; eexists; reflexivity ].
Qed.

(** Whatever a press of the button does, it adds to the screen one of the
    four shapes of [press_added]. *)
Lemma pressed_adds (u : Inputs) (w : World) (options : list string) :
  area_options (globals w) = Some options ->
  exists added,
    screen (snd (pressed u w)) = (screen w ++ added)%list /\ press_added added.
Proof.
  intros Hopt. destruct (str_in "Error" options) eqn:Hguard.
  - rewrite (pressed_blocked u w options Hopt Hguard). simpl.
    eexists. split; [reflexivity | constructor].
  - rewrite (pressed_passes u w options Hopt Hguard).
    destruct (body_adds u w) as [Hret Hraise].
    pose proof (stops_not_predict_body
                  (year_value u) (rainfall_value u) (avg_temp_value u)
                  (pesticide_value u) (item_selected u) (area_selected u) w) as Hstop.
    unfold try_except.
    destruct (predict_body _ _ _ _ _ _ w) as [[[] | e |] w1]; simpl in *.
    + destruct (Hret eq_refl) as [item [area [p E]]].
      eexists. split; [exact E | constructor].
    + unfold predict_failed, st_error, render, show. simpl.
      destruct (Hraise e eq_refl) as [E | [item [area E]]]; rewrite E.
      * eexists. split; [reflexivity | apply added_failed].
      * rewrite <- app_assoc. simpl.
        eexists. split; [reflexivity | apply added_failed_late].
    + now elim Hstop.
Qed.

(** Whenever the four artifacts load, the page with all six controls and
    the button is rendered first and in full, with the encoders' classes (or
    the sentinel) as the options of the two select boxes; what a press adds
    comes after it and has one of the four shapes of [press_added], so the
    form stays on the screen whatever the prediction does. *)
Theorem form_always_rendered
  (m : Model.t) (s : Scaler.t) (a i : Encoder.t) (u : Inputs) :
  exists added,
    screen (snd (run (disk_of m s a i) u)) = (form_page a i ++ added)%list
    /\ (if predict_clicked u then press_added added else added = []).
Proof.
  rewrite run_ready_page. destruct (predict_clicked u).
  - destruct (pressed_adds u (ready m s a i (form_page a i))
                (fst (options_after a i)) eq_refl) as [added [E Hshape]].
    exists added. split; [exact E | exact Hshape].
  - exists []. split; [symmetry; apply app_nil_r | reflexivity].
Qed.

(** A press of the button, the artifacts being loaded, never ends silently
    and never shows both a result and an error: the main panel gets either
    exactly one result and no error, or exactly one error and no result. *)
Theorem press_gives_one_feedback
  (m : Model.t) (s : Scaler.t) (a i : Encoder.t) (u : Inputs) :
  predict_clicked u = true ->
  let shown := screen (snd (run (disk_of m s a i) u)) in
  (exists text, results shown = [text] /\ main_errors shown = [])
  \/ (exists text, main_errors shown = [text] /\ results shown = []).
Proof.
  intros Hclick shown. subst shown.
  destruct (form_always_rendered m s a i u) as [added [E Hshape]].
  rewrite Hclick in Hshape. rewrite E, results_app, main_errors_app.
  destruct (form_page_quiet a i) as [He Hr]. rewrite He, Hr. simpl.
  destruct Hshape; simpl.
  - right. eexists. split; reflexivity.
  - right. eexists. split; reflexivity.
  - right. eexists. split; reflexivity.
  - left. eexists. split; reflexivity.
Qed.

(** [press_gives_one_feedback] for an area the encoder has not learned: one
    error, no result. *)
Lemma press_gives_one_feedback_witness :
  predict_clicked unseen_inputs = true
  /\ ((exists text,
         results (screen (snd (run sample_disk unseen_inputs))) = [text]
         /\ main_errors (screen (snd (run sample_disk unseen_inputs))) = [])
      \/ (exists text,
            main_errors (screen (snd (run sample_disk unseen_inputs))) = [text]
            /\ results (screen (snd (run sample_disk unseen_inputs))) = [])).
Proof.
  assert (H : predict_clicked unseen_inputs = true) by reflexivity.
  split; [exact H |].
  exact (press_gives_one_feedback
           sample_model sample_scaler (label_encoder sample_areas)
           (label_encoder sample_items) unseen_inputs H).
Defined.

(** ** The order of the calls *)

(** During one execution each artifact method is called at most once and in
    the order item encoder, area encoder, scaler, model; a step is reached
    only if the ones before it returned (the encoders with a non-empty list
    of codes); the scaler receives the frame assembled from the first codes
    and the model receives exactly what the scaler returned. *)
Theorem calls_in_pipeline_order
  (m : Model.t) (s : Scaler.t) (a i : Encoder.t) (u : Inputs) :
  let made := calls (snd (run (disk_of m s a i) u)) in
  let I := le_item_transform [item_selected u] in
  let A := le_area_transform [area_selected u] in
  made = []
  \/ made = [I]
  \/ (exists item_encoded item_rest,
        Encoder.transform i [item_selected u] = Ok (item_encoded :: item_rest)
        /\ (made = [I; A]
            \/ exists area_encoded area_rest,
                 Encoder.transform a [area_selected u]
                 = Ok (area_encoded :: area_rest)
                 /\ let X := input_data (year_value u) (rainfall_value u)
                                        (avg_temp_value u) (pesticide_value u)
                                        area_encoded item_encoded in
                    (made = [I; A; scaler_transform X]
                     \/ exists Xs,
                          Scaler.transform s X = Ok Xs
                          /\ made = [I; A; scaler_transform X; model_predict Xs]))).
Proof.
  intros made I A. subst made I A. rewrite run_ready_page.
  destruct (predict_clicked u); [| now left].
  unfold pressed, on_predict, predict_body. unfold_script.
  unfold ready, show, record. crunch.
  all: unfold ret, raise; simpl.
  all: first
         [ now left
         | right; left; reflexivity
         | right; right; eexists; eexists; split; [reflexivity |];
           first
             [ left; reflexivity
             | right; eexists; eexists; split; [reflexivity |];
               first
                 [ left; reflexivity
                 | right; eexists; split;
                   [first [eassumption | reflexivity] | reflexivity] ] ] ].
Qed.

(** ** The guard, both ways *)

Lemma main_errors_In (text : string) (els : list element) :
  In (Error Main text) els -> In text (main_errors els).
Proof.
  induction els as [| x els IH]; simpl; [tauto |].
  intros [E | H].
  - subst x. now left.
  - destruct x as [| | | | | [] | | | |]; simpl; auto.
Qed.

(** A press that passes the guard adds no configuration error. *)
Lemma passed_adds (u : Inputs) (w : World) (options : list string) :
  area_options (globals w) = Some options ->
  str_in "Error" options = false ->
  exists added,
    screen (snd (pressed u w)) = (screen w ++ added)%list
    /\ ~ In encoders_not_loaded_message (main_errors added).
Proof.
  intros Hopt Hguard.
  rewrite (pressed_passes u w options Hopt Hguard).
  destruct (body_adds u w) as [Hret Hraise].
  pose proof (stops_not_predict_body
                (year_value u) (rainfall_value u) (avg_temp_value u)
                (pesticide_value u) (item_selected u) (area_selected u) w) as Hstop.
  unfold try_except.
  destruct (predict_body _ _ _ _ _ _ w) as [[[] | e |] w1]; simpl in *.
  - destruct (Hret eq_refl) as [item [area [p E]]].
    eexists. split; [exact E | simpl; tauto].
  - unfold predict_failed, st_error, render, show. simpl.
    destruct (Hraise e eq_refl) as [E | [item [area E]]]; rewrite E.
    + eexists. split; [reflexivity |].
      simpl. intros [H | []]. discriminate H.
    + rewrite <- app_assoc. simpl.
      eexists. split; [reflexivity |].
      simpl. intros [H | []]. discriminate H.
  - now elim Hstop.
Qed.

(** A press that passes the guard calls the item encoder first. *)
Lemma passed_calls (m : Model.t) (s : Scaler.t) (a i : Encoder.t)
  (page : list element) (u : Inputs) :
  str_in "Error" (fst (options_after a i)) = false ->
  exists rest,
    calls (snd (pressed u (ready m s a i page)))
    = le_item_transform [item_selected u] :: rest.
Proof.
  intros Hguard.
  rewrite (pressed_passes u (ready m s a i page) (fst (options_after a i))
             eq_refl Hguard).
  unfold predict_body. unfold_script. unfold ready, show, record. crunch.
  all: unfold ret, raise; simpl.
  all: eexists; reflexivity.
Qed.

(** With both class lists readable, a press is rejected by the guard if and
    only if "Error" is among the area encoder's classes: exactly then the
    configuration error is shown and no artifact is called.  The item
    encoder's classes play no part in the guard. *)
Theorem guard_decided_by_area_classes
  (m : Model.t) (s : Scaler.t) (a i : Encoder.t) (u : Inputs)
  (area_classes item_classes : list string) :
  Encoder.classes_ a = Ok area_classes ->
  Encoder.classes_ i = Ok item_classes ->
  predict_clicked u = true ->
  (In encoders_not_loaded_message
      (main_errors (screen (snd (run (disk_of m s a i) u))))
   <-> In "Error" area_classes)
  /\ (calls (snd (run (disk_of m s a i) u)) = [] <-> In "Error" area_classes).
Proof.
  intros Ha Hi Hclick.
  assert (Hopts : fst (options_after a i) = area_classes).
  { unfold options_after. now rewrite Ha, Hi. }
  destruct (str_in "Error" area_classes) eqn:Hguard.
  - assert (Hin : In "Error" area_classes) by now apply str_in_In.
    destruct (run_blocked m s a i u) as [page [E _]];
      [now rewrite Hopts | exact Hclick |].
    rewrite E. simpl. rewrite main_errors_app. simpl. split; split; auto.
    intros _. apply in_or_app. right. now left.
  - assert (Hno : ~ In "Error" area_classes).
    { intros Hin. apply str_in_In in Hin. congruence. }
    rewrite <- Hopts in Hguard.
    rewrite run_ready_page, Hclick.
    split; split; intros H; try contradiction; exfalso.
    + destruct (passed_adds u (ready m s a i (form_page a i))
                  (fst (options_after a i)) eq_refl Hguard) as [added [E Hnone]].
      rewrite E in H.
      change (screen (ready m s a i (form_page a i))) with (form_page a i) in H.
      rewrite main_errors_app in H.
      destruct (form_page_quiet a i) as [He _]. rewrite He in H.
      now apply Hnone.
    + destruct (passed_calls m s a i (form_page a i) u Hguard) as [rest E].
      rewrite E in H. discriminate H.
Qed.

(** [guard_decided_by_area_classes] on the sample artifacts: "Error" is not
    an area class and the item encoder is called. *)
Lemma guard_decided_by_area_classes_witness :
  Encoder.classes_ (label_encoder sample_areas) = Ok sample_areas
  /\ Encoder.classes_ (label_encoder sample_items) = Ok sample_items
  /\ predict_clicked sample_inputs = true
  /\ (calls (snd (run sample_disk sample_inputs)) = [] <-> In "Error" sample_areas).
Proof.
  split; [reflexivity |]. split; [reflexivity |]. split; [reflexivity |].
  exact (proj2 (guard_decided_by_area_classes
                  sample_model sample_scaler (label_encoder sample_areas)
                  (label_encoder sample_items) sample_inputs
                  sample_areas sample_items eq_refl eq_refl eq_refl)).
Defined.

(** ** Steps that fail *)

Ltac run_press Hclick Hguard :=
  rewrite run_ready_page, Hclick;
  rewrite (pressed_passes _ (ready _ _ _ _ _) _ eq_refl Hguard);
  unfold predict_body; unfold_script; unfold ready, show, record; simpl.

(** When a step of the pipeline raises, the press ends there: the steps
    after it are not run (a failing encoder keeps the scaler and the model
    from being called, a failing scaler keeps the model from being called),
    nothing of the result is rendered, and the only thing added to the page
    is the error with the text of that exception. *)
Theorem failing_step_ends_the_press
  (m : Model.t) (s : Scaler.t) (a i : Encoder.t) (u : Inputs) (e : exn) :
  predict_clicked u = true ->
  str_in "Error" (fst (options_after a i)) = false ->
  let I := le_item_transform [item_selected u] in
  let A := le_area_transform [area_selected u] in
  let failed made :=
    run (disk_of m s a i) u
    = (Ret tt,
       {| globals := globals (ready m s a i []);
          screen := form_page a i
                    ++ [Error Main ("An error occurred during prediction: "
                                    ++ exn_text e)];
          calls := made |}) in
  (Encoder.transform i [item_selected u] = Err e -> failed [I])
  /\ (forall item_encoded item_rest,
        Encoder.transform i [item_selected u] = Ok (item_encoded :: item_rest) ->
        Encoder.transform a [area_selected u] = Err e ->
        failed [I; A])
  /\ (forall item_encoded item_rest area_encoded area_rest,
        Encoder.transform i [item_selected u] = Ok (item_encoded :: item_rest) ->
        Encoder.transform a [area_selected u] = Ok (area_encoded :: area_rest) ->
        let X := input_data (year_value u) (rainfall_value u) (avg_temp_value u)
                            (pesticide_value u) area_encoded item_encoded in
        (Scaler.transform s X = Err e -> failed [I; A; scaler_transform X])
        /\ (forall Xs,
              Scaler.transform s X = Ok Xs ->
              Model.predict m Xs = Err e ->
              failed [I; A; scaler_transform X; model_predict Xs])).
Proof.
  intros Hclick Hguard I A failed. subst I A failed. simpl.
  split; [| split].
  - intros Ti. run_press Hclick Hguard. rewrite Ti. reflexivity.
  - intros ci ri Ti Ta. run_press Hclick Hguard. rewrite Ti. simpl.
    rewrite Ta. reflexivity.
  - intros ci ri ca ra Ti Ta. split.
    + intros Ts. run_press Hclick Hguard. rewrite Ti. simpl. rewrite Ta. simpl.
      rewrite Ts. reflexivity.
    + intros Xs Ts Tm. run_press Hclick Hguard. rewrite Ti. simpl.
      rewrite Ta. simpl. rewrite Ts. simpl. rewrite Tm. reflexivity.
Qed.

(** [failing_step_ends_the_press] for an area the encoder has not learned:
    the scaler and the model are not called. *)
Lemma failing_step_ends_the_press_witness :
  predict_clicked unseen_inputs = true
  /\ str_in "Error" (fst (options_after (label_encoder sample_areas)
                                        (label_encoder sample_items))) = false
  /\ calls (snd (run sample_disk unseen_inputs))
     = [le_item_transform [Some "Maize"]; le_area_transform [Some "Atlantis"]]
  /\ main_errors (screen (snd (run sample_disk unseen_inputs)))
     = ["An error occurred during prediction: y contains previously unseen labels: 'Atlantis'"].
Proof.
  split; [reflexivity |]. split; [reflexivity |].
  destruct (failing_step_ends_the_press
              sample_model sample_scaler (label_encoder sample_areas)
              (label_encoder sample_items) unseen_inputs
              (Exn ValueError "y contains previously unseen labels: 'Atlantis'")
              eq_refl eq_refl) as [_ [Harea _]].
  unfold sample_disk. rewrite (Harea 3 [] eq_refl eq_refl).
  split; reflexivity.
Defined.

(** ** Empty answers *)

(** An artifact that answers with an empty array makes [[0]] raise an
    [IndexError], which is shown like any other failure.  For the item
    encoder this ends the press after its call.  For the model it happens
    after the headline has been rendered: the page then shows the headline
    (for ASCII names, the names in title case) followed by the error, and
    no result. *)
Theorem empty_answers_are_errors
  (m : Model.t) (s : Scaler.t) (a i : Encoder.t) (u : Inputs) :
  predict_clicked u = true ->
  str_in "Error" (fst (options_after a i)) = false ->
  exists e,
    exn_class_of e = IndexError
    /\ (Encoder.transform i [item_selected u] = Ok [] ->
        calls (snd (run (disk_of m s a i) u)) = [le_item_transform [item_selected u]]
        /\ screen (snd (run (disk_of m s a i) u))
           = (form_page a i
              ++ [Error Main ("An error occurred during prediction: " ++ exn_text e)])%list)
    /\ (forall item area item_encoded item_rest area_encoded area_rest Xs,
          item_selected u = Some item -> area_selected u = Some area ->
          Encoder.transform i [Some item] = Ok (item_encoded :: item_rest) ->
          Encoder.transform a [Some area] = Ok (area_encoded :: area_rest) ->
          Scaler.transform s (input_data (year_value u) (rainfall_value u)
                                         (avg_temp_value u) (pesticide_value u)
                                         area_encoded item_encoded) = Ok Xs ->
          Model.predict m Xs = Ok [] ->
          In (model_predict Xs) (calls (snd (run (disk_of m s a i) u)))
          /\ results (screen (snd (run (disk_of m s a i) u))) = []
          /\ exists item_shown area_shown,
               screen (snd (run (disk_of m s a i) u))
               = (form_page a i
                  ++ [Subheader (headline item_shown area_shown);
                      Error Main ("An error occurred during prediction: "
                                  ++ exn_text e)])%list
               /\ (is_ascii item = true -> item_shown = title item)
               /\ (is_ascii area = true -> area_shown = title area)).
Proof.
  intros Hclick Hguard.
  exists (Exn IndexError "index 0 is out of bounds for axis 0 with size 0").
  split; [reflexivity |]. split.
  - intros Ti. run_press Hclick Hguard. rewrite Ti. simpl. split; reflexivity.
  - intros item area ci ri ca ra Xs Hitem Harea Ti Ta Ts Tm.
    run_press Hclick Hguard. rewrite Hitem, Harea. rewrite Ti. simpl.
    rewrite Ta. simpl. rewrite Ts. simpl. rewrite Tm. simpl.
    split; [do 3 right; left; reflexivity |].
    repeat rewrite <- app_assoc.
    split.
    + unfold form_page.
      destruct (Encoder.classes_ a); [destruct (Encoder.classes_ i) |]; reflexivity.
    + exists (title item), (title area).
      split; [| split; intros _; reflexivity].
      unfold form_page.
      destruct (Encoder.classes_ a); [destruct (Encoder.classes_ i) |]; reflexivity.
Qed.

(** [empty_answers_are_errors] with a model that returns an empty array:
    the headline is on the page, followed by the error. *)
Lemma empty_answers_are_errors_witness :
  predict_clicked sample_inputs = true
  /\ str_in "Error" (fst (options_after (label_encoder sample_areas)
                                        (label_encoder sample_items))) = false
  /\ exists e,
       screen (snd (run silent_disk sample_inputs))
       = (form_page (label_encoder sample_areas) (label_encoder sample_items)
          ++ [Subheader "Predicted Crop Yield for Maize in Nigeria:";
              Error Main ("An error occurred during prediction: " ++ exn_text e)])%list.
Proof.
  split; [reflexivity |]. split; [reflexivity |].
  destruct (empty_answers_are_errors
              silent_model sample_scaler (label_encoder sample_areas)
              (label_encoder sample_items) sample_inputs eq_refl eq_refl)
    as [e [_ [_ Hmodel]]].
  exists e.
  destruct (Hmodel "Maize" "Nigeria" 3 [] 7 [] sample_scaled
                   eq_refl eq_refl eq_refl eq_refl eq_refl eq_refl)
    as [_ [_ [item_shown [area_shown [Hscreen [Hi Ha]]]]]].
  unfold silent_disk. rewrite Hscreen, (Hi eq_refl), (Ha eq_refl). reflexivity.
Defined.

(** ** What a shown result is *)

(** A result is on the screen only if the whole pipeline ran: both choices
    are strings, both encoders returned a code, the scaler returned [Xs] for
    the frame assembled from the inputs and the first codes, the model was
    called with [Xs] and returned a non-empty array, and the text shown is
    the formatting of its first element.  The result block (its headline
    naming, for ASCII names, the two names in title case) is then the last
    thing on the page. *)
Theorem shown_result_is_model_output
  (m : Model.t) (s : Scaler.t) (a i : Encoder.t) (u : Inputs) (text : string) :
  In (Success text) (screen (snd (run (disk_of m s a i) u))) ->
  exists item area item_encoded item_rest area_encoded area_rest Xs p rest,
    item_selected u = Some item /\ area_selected u = Some area
    /\ Encoder.transform i [Some item] = Ok (item_encoded :: item_rest)
    /\ Encoder.transform a [Some area] = Ok (area_encoded :: area_rest)
    /\ Scaler.transform s (input_data (year_value u) (rainfall_value u)
                                      (avg_temp_value u) (pesticide_value u)
                                      area_encoded item_encoded) = Ok Xs
    /\ Model.predict m Xs = Ok (p :: rest)
    /\ text = yield_text p
    /\ In (model_predict Xs) (calls (snd (run (disk_of m s a i) u)))
    /\ exists item_shown area_shown,
         screen (snd (run (disk_of m s a i) u))
         = (form_page a i
            ++ [Subheader (headline item_shown area_shown);
                Success (yield_text p);
                Markdown "---";
                Header Main "How this prediction can help:";
                Markdown (advice p (pesticide_value u) (rainfall_value u)
                                 (avg_temp_value u))])%list
         /\ (is_ascii item = true -> item_shown = title item)
         /\ (is_ascii area = true -> area_shown = title area).
Proof.
  rewrite run_ready_page. intros H.
  assert (Hquiet : ~ In (Success text) (form_page a i)).
  { intros Hin. unfold form_page in Hin.
    destruct (Encoder.classes_ a); [destruct (Encoder.classes_ i) |];
      simpl in Hin;
      repeat (destruct Hin as [Hin | Hin]; [discriminate Hin |]); exact Hin. }
  assert (Hpage : forall els, In (Success text) (form_page a i ++ els) ->
                              In (Success text) els).
  { intros els Hin. apply in_app_or in Hin. tauto. }
  destruct (predict_clicked u); [| now elim Hquiet].
  clear Hquiet. revert H Hpage. generalize (form_page a i). intros page H Hpage.
  revert H.
  unfold pressed, on_predict, predict_body. unfold_script.
  unfold ready, show, record. crunch.
  all: unfold ret, raise; simpl.
  all: repeat rewrite <- app_assoc; simpl.
  all: intros H; apply Hpage in H; simpl in H.
  all: repeat (destruct H as [H | H]; [try discriminate H |]); try contradiction.
  injection H as <-.
  do 9 eexists.
  repeat (split; [first [reflexivity | eassumption] |]).
  split; [do 3 right; left; reflexivity |].
  eexists. eexists. split; [reflexivity |]. split; intros _; reflexivity.
Qed.

(** [shown_result_is_model_output] on the sample artifacts. *)
Lemma shown_result_is_model_output_witness :
  In (Success "**83699.67 hg/ha**") (screen (snd (run sample_disk sample_inputs)))
  /\ exists Xs p rest,
       Model.predict sample_model Xs = Ok (p :: rest)
       /\ "**83699.67 hg/ha**" = yield_text p
       /\ In (model_predict Xs) (calls (snd (run sample_disk sample_inputs))).
Proof.
  assert (H : In (Success "**83699.67 hg/ha**")
                 (screen (snd (run sample_disk sample_inputs))))
    by (vm_compute; do 11 right; left; reflexivity).
  split; [exact H |].
  destruct (shown_result_is_model_output
              sample_model sample_scaler (label_encoder sample_areas)
              (label_encoder sample_items) sample_inputs _ H)
    as [item [area [ci [ri [ca [ra [Xs [p [rest R]]]]]]]]].
  destruct R as [_ [_ [_ [_ [_ [Tm [Et [Hc _]]]]]]]].
  exists Xs, p, rest. split; [exact Tm |]. split; [exact Et | exact Hc].
Defined.

(* ------------------------------------------------------------------ *)
(** * Valid inputs *)






